(** * ListenBrainz front-end: route table, user search widget,
      artist-similarity explorer and artist info panel

    A shallow embedding of
      - frontend/js/src/common/UserSearch.tsx   (user search widget),
      - the index route table ([getIndexRoutes]),
      - frontend/js/src/explore/artist-similarity/Data.tsx (explorer),
      - the artist panel ([Panel], [handleTrackChange], [getArtistInfo]),
    with React state written as records, state setters as record updates,
    [useEffect] hooks as functions run after a commit, and the outside world
    (network completions, clicks, typing, timers) as events. *)

From Stdlib Require Import ZArith Lia.
From stdpp Require Import base option strings list gmap.

Set Warnings "-register-all".

Local Open Scope string_scope.
Local Open Scope list_scope.
Local Open Scope Z_scope.

(* ===================================================================== *)
(** * The route table ([getIndexRoutes])                                  *)
(* ===================================================================== *)

Module Routes.

(** What a [lazy] function resolves to: the module it imports, the export it
    returns as [Component] and, when it returns one, the export it returns as
    [loader]. *)
Record LazyRoute := mkLazy {
  import_path : string;
  Component : string;
  lazy_loader : option string
}.

(** A route object of the router: every field the source writes. *)
Inductive RouteObject :=
  Route (path : option string) (index : bool) (element : option string)
        (lazy : option LazyRoute) (loader : option string)
        (children : list RouteObject).

Definition path (r : RouteObject) : option string :=
  let 'Route p _ _ _ _ _ := r in p.
Definition index (r : RouteObject) : bool :=
  let 'Route _ i _ _ _ _ := r in i.
Definition element (r : RouteObject) : option string :=
  let 'Route _ _ e _ _ _ := r in e.
Definition lazy (r : RouteObject) : option LazyRoute :=
  let 'Route _ _ _ l _ _ := r in l.
Definition loader (r : RouteObject) : option string :=
  let 'Route _ _ _ _ l _ := r in l.
Definition children (r : RouteObject) : list RouteObject :=
  let 'Route _ _ _ _ _ c := r in c.

Definition RouteLoader : string := "RouteLoader".

Definition getIndexRoutes : list RouteObject :=
  let routes := [
    Route (Some "/") false (Some "Outlet") None None [
      Route None true None
        (Some (mkLazy "../home/Homepage" "default" None))
        (Some RouteLoader) [];
      Route (Some "login/") false None
        (Some (mkLazy "../login/Login" "default" None)) None [];
      Route (Some "agree-to-terms/") false None
        (Some (mkLazy "../gdpr/GDPR" "default" None)) None [];
      Route (Some "import-data/") false None
        (Some (mkLazy "../import-data/ImportData" "default" None)) None [];
      Route (Some "messybrainz/") false None
        (Some (mkLazy "../messybrainz/MessyBrainz" "default" None)) None [];
      Route (Some "lastfm-proxy/") false None
        (Some (mkLazy "../lastfm-proxy/LastfmProxy" "default" None)) None [];
      Route (Some "listens-offline/") false None
        (Some (mkLazy "../listens-offline/ListensOffline" "default" None))
        None [];
      Route (Some "musicbrainz-offline/") false None
        (Some (mkLazy "../musicbrainz-offline/MusicBrainzOffline" "default"
                      None))
        None [];
      Route (Some "search/") false None
        (Some (mkLazy "../search/UserSearch" "default" None))
        (Some RouteLoader) [];
      Route (Some "playlist/:playlistID/") false None
        (Some (mkLazy "../playlists/Playlist" "PlaylistPageWrapper" None))
        (Some RouteLoader) [];
      Route (Some "listening-now/") false None
        (Some (mkLazy "../metadata-viewer/MetadataViewerPage"
                      "PlayingNowPageWrapper" None))
        (Some RouteLoader) [];
      Route (Some "/statistics/") false None
        (Some (mkLazy "../user/layout" "default" None)) None [
          Route None true None
            (Some (mkLazy "../user/stats/UserReports" "StatisticsPage" None))
            None [];
          Route (Some "top-artists/") false None
            (Some (mkLazy "../user/charts/UserEntityChart" "default"
                          (Some "StatisticsChartLoader")))
            None [];
          Route (Some "top-albums/") false None
            (Some (mkLazy "../user/charts/UserEntityChart" "default"
                          (Some "StatisticsChartLoader")))
            None [];
          Route (Some "top-tracks/") false None
            (Some (mkLazy "../user/charts/UserEntityChart" "default"
                          (Some "StatisticsChartLoader")))
            None []
        ];
      Route (Some "/") false None
        (Some (mkLazy "../user-feed/UserFeedLayout" "default" None)) None [
          Route (Some "/feed/") false None
            (Some (mkLazy "../user-feed/UserFeed" "default" None)) None [];
          Route (Some "/recent/") false None
            (Some (mkLazy "../recent/RecentListens" "RecentListensWrapper"
                          (Some "RecentListensLoader")))
            None []
        ]
    ]
  ] in
  routes.

(** ** Observations on a route table *)

(** How an entry matches: by its path, or as the index of its parent. *)
Inductive Matcher := Index | Path (p : string) | Pathless.

(** The shape of a table: matchers and nesting, nothing else. *)
Inductive PathTree := Node (m : Matcher) (sub : list PathTree).

Definition matcher (r : RouteObject) : Matcher :=
  if index r then Index else from_option Path Pathless (path r).

Fixpoint path_tree (r : RouteObject) : PathTree :=
  Node (matcher r) (map path_tree (children r)).

(** Every entry of a table, parents before their children. *)
Fixpoint all_routes (r : RouteObject) : list RouteObject :=
  r :: flat_map all_routes (children r).

Definition has_path (p : string) (r : RouteObject) : bool :=
  bool_decide (path r = Some p).

(** The entries of [rs] whose path is [p]. *)
Definition entries_at (p : string) (rs : list RouteObject) : list RouteObject :=
  List.filter (has_path p) rs.

(** The child of a list of entries selected by its path. *)
Definition child_at (p : string) (rs : list RouteObject) : option RouteObject :=
  List.find (has_path p) rs.

(** The page a route resolves to: its lazy record. *)
Definition resolves_to (ps : list string) : option LazyRoute :=
  let fix go (ps : list string) (rs : list RouteObject) : option RouteObject :=
    match ps with
    | [] => None
    | [p] => child_at p rs
    | p :: ps' => child_at p rs ≫= λ r, go ps' (children r)
    end in
  go ps getIndexRoutes ≫= lazy.

(** The path set of the route table, as the specification enumerates it,
    with the nesting of the source. *)
Definition enumerated_paths : list PathTree :=
  [ Node (Path "/") [
      Node Index [];
      Node (Path "login/") [];
      Node (Path "agree-to-terms/") [];
      Node (Path "import-data/") [];
      Node (Path "messybrainz/") [];
      Node (Path "lastfm-proxy/") [];
      Node (Path "listens-offline/") [];
      Node (Path "musicbrainz-offline/") [];
      Node (Path "search/") [];
      Node (Path "playlist/:playlistID/") [];
      Node (Path "listening-now/") [];
      Node (Path "/statistics/") [
        Node Index [];
        Node (Path "top-artists/") [];
        Node (Path "top-albums/") [];
        Node (Path "top-tracks/") [] ];
      Node (Path "/") [
        Node (Path "/feed/") [];
        Node (Path "/recent/") [] ] ] ].

(** The page and loader pair of the three statistics charts. *)
Definition entityChart : LazyRoute :=
  mkLazy "../user/charts/UserEntityChart" "default"
    (Some "StatisticsChartLoader").

End Routes.

(* ===================================================================== *)
(** * Shared data: artists, listens, thrown values, notifications         *)
(* ===================================================================== *)

Module Types.

(** Modelled from the spec: the global type [ArtistType] is declared outside
    the two source files; the fields the code reads are [artist_mbid],
    [name] and the optional [type]. *)
Record ArtistType := mkArtist {
  artist_mbid : string;
  name : string;
  type : option string
}.

(** Modelled from the spec: the global type [Listen], with the
    [track_metadata] fields that [handleTrackChange] fills in. *)
Record TrackMetadata := mkTrackMetadata {
  artist_name : string;
  track_name : string;
  release_name : string;
  release_mbid : string;
  recording_mbid : option string
}.

Record Listen := mkListen {
  listened_at : Z;
  track_metadata : TrackMetadata
}.

(** A value caught by a [catch] clause: an error object with its [message]
    (what [fetch], [json()] and a failing property access throw), or a
    thrown primitive (a string). *)
Inductive Thrown :=
| ThrownObject (message : string)
| ThrownString (raw : string).

Definition typeof (error : Thrown) : string :=
  match error with
  | ThrownObject _ => "object"
  | ThrownString _ => "string"
  end.

(** [error.message]: a string has no such property, which shows as no
    text. *)
Definition message_of (error : Thrown) : string :=
  match error with ThrownObject m => m | ThrownString _ => EmptyString end.

(** The thrown value itself, shown as text. *)
Definition raw_of (error : Thrown) : string :=
  match error with
  | ThrownObject _ => "[object Object]"
  | ThrownString v => v
  end.

(** [<ToastMsg title=... message=... />] *)
Record ToastMsg := mkToastMsg { title : string; message : string }.

(** A call [toast.error(content, { toastId })]. *)
Record ToastCall := mkToastCall { content : ToastMsg; toastId : string }.

(** The toast shown by both [catch] clauses of the explorer and the panel. *)
Definition searchErrorToast (error : Thrown) : ToastCall :=
  mkToastCall
    (mkToastMsg "Search Error"
       (if String.eqb (typeof error) "object"
        then message_of error else raw_of error))
    "error".

(** Modelled from the spec: the notification layer is an external
    dependency; it keeps the notifications on screen keyed by their id, so
    that a call under an id already on screen does not add a second
    notification. Whether the pending one is replaced or kept is left to
    [DuplicatePolicy]. *)
Inductive DuplicatePolicy := ReplacePending | KeepPending.

Definition toast_error (policy : DuplicatePolicy) (shown : gmap string ToastMsg)
    (call : ToastCall) : gmap string ToastMsg :=
  match policy, shown !! toastId call with
  | KeepPending, Some _ => shown
  | _, _ => <[toastId call := content call]> shown
  end.

Definition toast_all (policy : DuplicatePolicy) (shown : gmap string ToastMsg)
    (calls : list ToastCall) : gmap string ToastMsg :=
  foldl (toast_error policy) shown calls.

(** JavaScript's [Array.prototype.slice(start, end)] on integer arguments:
    a negative bound counts from the end, both bounds are clamped to the
    length. *)
Definition slice {A} (l : list A) (start_ end_ : Z) : list A :=
  let len := Z.of_nat (length l) in
  let relative k := if k <? 0 then Z.max (len + k) 0 else Z.min k len in
  let k := relative start_ in
  let final := relative end_ in
  take (Z.to_nat (Z.max (final - k) 0)) (drop (Z.to_nat k) l).

(** Truthiness of a string: every string but the empty one. *)
Definition truthy (s : string) : bool := negb (String.eqb s EmptyString).

End Types.
Import Types.

(* ===================================================================== *)
(** * The artist-similarity explorer ([Data])                             *)
(* ===================================================================== *)

Module Explorer.

(** The colour library (tinycolor2) is an external dependency: a type of
    colours and [tetrad], which returns four colours, the receiver first. *)
Class TinyColor := {
  Color : Type;
  tetrad : Color → Color * Color * Color * Color
}.

(** [c.tetrad()[1]] *)
Definition tetrad_1 `{TinyColor} (c : Color) : Color :=
  let '(_, c1, _, _) := tetrad c in c1.

(** Modelled from the spec: the response types are declared outside the two
    source files. An entry is tagged by [type]; a ["dataset"] entry carries
    rows of artists in [data]. *)
Record MarkupResponseType := mkMarkup { markup_data : string }.
Record DatasetResponseType := mkDataset {
  columns : list string;
  dataset_data : list ArtistType
}.
Inductive ResponseEntry :=
| Markup (m : MarkupResponseType)
| Dataset (d : DatasetResponseType).
Definition ApiResponseType := list ResponseEntry.

Definition response_type (response : ResponseEntry) : string :=
  match response with Markup _ => "markup" | Dataset _ => "dataset" end.

(** [response.data] once the entry is known to be a dataset. *)
Definition data (response : ResponseEntry) : list ArtistType :=
  match response with Markup _ => [] | Dataset d => dataset_data d end.

(** The entries of a response tagged ["dataset"], in the order of the
    response. *)
Definition datasets (dataResponse : ApiResponseType)
    : list DatasetResponseType :=
  omap (λ r, match r with Dataset d => Some d | Markup _ => None end)
    dataResponse.

Definition ARTIST_MBID : string := "8f6bd1e4-fbe1-4f50-aa9b-94c450ec0f11".
Definition SIMILAR_ARTISTS_LIMIT_VALUE : Z := 18.
Definition BASE_URL : string :=
  "https://labs.api.listenbrainz.org/similar-artists/json?algorithm=session_based_days_7500_session_300_contribution_5_threshold_10_limit_100_filter_True_skip_30&artist_mbid=".

(** What the component asks of the outside world. *)
Inductive Effect :=
| Fetch (url : string)
| Toast (call : ToastCall).

Definition is_fetch (e : Effect) : bool :=
  match e with Fetch _ => true | Toast _ => false end.
Definition toast_calls (fx : list Effect) : list ToastCall :=
  omap (λ e, match e with Toast c => Some c | Fetch _ => None end) fx.

(** How an awaited [fetch(...)] followed by [response.json()] ends. *)
Inductive Settled :=
| Resolved (dataResponse : ApiResponseType)
| Rejected (error : Thrown).

(** What happens to a mounted explorer. *)
Inductive Event :=
| OnArtistChange (mbid : string)
| OnSimilarArtistsLimitChange (limit : Z)
| OnTrackChange (tracks : list Listen)
| FetchSettled (outcome : Settled).

Section WithColors.
Context `{TinyColor}.

(** [colorGenerator], given the colour drawn at random
    ([hsv(Math.random() * 360, 100%, 90%)]). *)
Definition colorGenerator (initialColor : Color) : Color * Color :=
  (initialColor, tetrad_1 initialColor).

(** The [useState] cells of [Data]. *)
Record State := mkState {
  similarArtistsList : list ArtistType;
  completeSimilarArtistsList : list ArtistType;
  mainArtist : option ArtistType;
  similarArtistsLimit : Z;
  colors : Color * Color;
  artistMBID : string;
  currentTracks : option (list Listen)
}.

Definition setSimilarArtistsList (v : list ArtistType) (s : State) : State :=
  mkState v (completeSimilarArtistsList s) (mainArtist s)
    (similarArtistsLimit s) (colors s) (artistMBID s) (currentTracks s).
Definition setCompleteSimilarArtistsList (v : list ArtistType) (s : State)
    : State :=
  mkState (similarArtistsList s) v (mainArtist s)
    (similarArtistsLimit s) (colors s) (artistMBID s) (currentTracks s).
Definition setMainArtist (v : option ArtistType) (s : State) : State :=
  mkState (similarArtistsList s) (completeSimilarArtistsList s) v
    (similarArtistsLimit s) (colors s) (artistMBID s) (currentTracks s).
Definition setSimilarArtistsLimit (v : Z) (s : State) : State :=
  mkState (similarArtistsList s) (completeSimilarArtistsList s) (mainArtist s)
    v (colors s) (artistMBID s) (currentTracks s).
Definition setColors (f : Color * Color → Color * Color) (s : State) : State :=
  mkState (similarArtistsList s) (completeSimilarArtistsList s) (mainArtist s)
    (similarArtistsLimit s) (f (colors s)) (artistMBID s) (currentTracks s).
Definition setArtistMBID (v : string) (s : State) : State :=
  mkState (similarArtistsList s) (completeSimilarArtistsList s) (mainArtist s)
    (similarArtistsLimit s) (colors s) v (currentTracks s).
Definition setCurrentTracks (v : list Listen) (s : State) : State :=
  mkState (similarArtistsList s) (completeSimilarArtistsList s) (mainArtist s)
    (similarArtistsLimit s) (colors s) (artistMBID s) (Some v).

Definition isDatasetResponse (response : ResponseEntry) : bool :=
  String.eqb (response_type response) "dataset".

(** [processData] *)
Definition processData (dataResponse : ApiResponseType) (s : State) : State :=
  let artistsData := List.filter isDatasetResponse dataResponse in
  let s :=
    match artistsData with
    | [] => s
    | first :: _ =>
        let s := setMainArtist (head (data first)) s in
        let similarArtistsResponse := artistsData !! 1%nat in
        setCompleteSimilarArtistsList
          (from_option data [] similarArtistsResponse) s
    end in
  setColors (λ prevColors, (prevColors.2, tetrad_1 prevColors.2)) s.

(** Whether [processData] stores a new array in
    [completeSimilarArtistsList]. *)
Definition storesCompleteList (dataResponse : ApiResponseType) : bool :=
  match List.filter isDatasetResponse dataResponse with
  | [] => false
  | _ :: _ => true
  end.

(** [fetchData] up to its first [await]: the request it sends. *)
Definition fetchData (artist_mbid : string) : list Effect :=
  [Fetch (BASE_URL +:+ artist_mbid)].

(** [fetchData] from its first [await] on: the [try] body on a response,
    the [catch] clause on a failure. *)
Definition fetchData_settled (outcome : Settled) (s : State)
    : State * list Effect :=
  match outcome with
  | Resolved dataResponse => (processData dataResponse s, [])
  | Rejected error =>
      (setSimilarArtistsList [] s, [Toast (searchErrorToast error)])
  end.

(** The second [useEffect]: the displayed list is a slice of the complete
    one. *)
Definition sliceEffect (s : State) : State :=
  let newSimilarArtistsList :=
    slice (completeSimilarArtistsList s) 0 (similarArtistsLimit s) in
  setSimilarArtistsList newSimilarArtistsList s.

(** The two [useEffect] hooks after a commit from [prev] to [next]. The
    first depends on [artistMBID] ([fetchData] never changes), the second on
    [completeSimilarArtistsList] and [similarArtistsLimit]. Dependencies are
    compared by identity: strings and numbers by value, an array stored by
    [processData] is a new one whatever it holds ([newList]). *)
Definition commit (newList : bool) (prev next : State) : State * list Effect :=
  let requests :=
    if String.eqb (artistMBID prev) (artistMBID next) then []
    else fetchData (artistMBID next) in
  let next :=
    if newList || negb (similarArtistsLimit prev =? similarArtistsLimit next)
    then sliceEffect next else next in
  (next, requests).

(** One event: its handler, then the effects of the commit. *)
Definition step (s : State) (ev : Event) : State * list Effect :=
  let '(next, newList, raised) :=
    match ev with
    | OnArtistChange mbid => (setArtistMBID mbid s, false, [])
    | OnSimilarArtistsLimitChange limit =>
        (setSimilarArtistsLimit limit s, false, [])
    | OnTrackChange tracks => (setCurrentTracks tracks s, false, [])
    | FetchSettled outcome =>
        let '(next, raised) := fetchData_settled outcome s in
        (next,
         match outcome with
         | Resolved dataResponse => storesCompleteList dataResponse
         | Rejected _ => false
         end,
         raised)
    end in
  let '(next, requests) := commit newList s next in
  (next, raised ++ requests).

Fixpoint run (s : State) (evs : list Event) : State * list Effect :=
  match evs with
  | [] => (s, [])
  | ev :: evs =>
      let '(s, fx) := step s ev in
      let '(s, fx') := run s evs in
      (s, fx ++ fx')
  end.

(** The first render and its two effects. *)
Definition mount (initialColor : Color) : State * list Effect :=
  let initial :=
    mkState [] [] None SIMILAR_ARTISTS_LIMIT_VALUE
      (colorGenerator initialColor) ARTIST_MBID None in
  (sliceEffect initial, fetchData (artistMBID initial)).

(** The rotation of the colour pair. *)
Definition rotate (pair : Color * Color) : Color * Color :=
  (pair.2, tetrad_1 pair.2).

(** The number of responses processed in a run of events. *)
Definition processed (evs : list Event) : nat :=
  length (List.filter
            (λ ev, match ev with FetchSettled (Resolved _) => true | _ => false end)
            evs).

End WithColors.

Arguments State {_}.

(** A colour wheel to run the definitions on: a colour is its hue in
    degrees, and [tetrad] turns it by quarters. *)
Definition HueWheel : TinyColor :=
  {| Color := Z;
     tetrad h := (h, (h + 90) mod 360, (h + 180) mod 360, (h + 270) mod 360) |}.

(** A response of the similarity service and a mounted explorer, to run the
    definitions on. *)
Definition portishead : ArtistType :=
  mkArtist "8f6bd1e4-fbe1-4f50-aa9b-94c450ec0f11" "Portishead" (Some "Group").
Definition massive_attack : ArtistType :=
  mkArtist "10adbe5e-a2c0-4bf3-8249-2b4cbf6e6ca8" "Massive Attack"
    (Some "Group").
Definition tricky : ArtistType :=
  mkArtist "7e870dd5-2667-454b-9fcf-a132dd8071f1" "Tricky" (Some "Person").
Definition bjork : ArtistType :=
  mkArtist "87c5dedd-371d-4a53-9f7f-80522fb7f3cb" "Bjork" (Some "Person").

Definition sample_main : DatasetResponseType :=
  mkDataset ["artist_mbid"; "name"; "type"] [portishead].
Definition sample_similar : DatasetResponseType :=
  mkDataset ["artist_mbid"; "name"; "type"] [massive_attack; tricky; bjork].
Definition sample_response : ApiResponseType :=
  [ Markup (mkMarkup "<p>Similar artists</p>");
    Dataset sample_main;
    Markup (mkMarkup "<hr/>");
    Dataset sample_similar ].
Definition sample_markup_only : ApiResponseType :=
  [ Markup (mkMarkup "<p>Unknown artist</p>") ].

(** The explorer once [sample_response] is on screen. *)
Definition sample_state : @State HueWheel :=
  mkState (H:=HueWheel) [massive_attack; tricky; bjork]
    [massive_attack; tricky; bjork] (Some portishead)
    SIMILAR_ARTISTS_LIMIT_VALUE (90, 180) ARTIST_MBID None.

End Explorer.

(* ===================================================================== *)
(** * The artist info panel ([Panel])                                     *)
(* ===================================================================== *)

Module Panel.

(** Type for both top track and album, i.e. a MusicBrainz recording. *)
Record RecordingType := mkRecording {
  release_mbid : string;
  release_name : string;
  recording_mbid : option string;
  recording_name : option string;
  caa_id : Z;
  caa_release_mbid : string
}.

Record ArtistInfoType := mkArtistInfo {
  name : option string;
  type : option string;
  born : string;
  area : string;
  wiki : string;
  mbLink : string;
  topAlbum : option RecordingType;
  topTrack : option RecordingType
}.

(** What the panel asks of the outside world: the lookup, the callback of
    its parent, a notification. *)
Inductive Effect :=
| InfoLookup (artist_mbid : string)
| OnTrackChange (currentTrack : list Listen)
| Toast (call : ToastCall).

(** The props and the [useState] cell of [Panel]. *)
Record State := mkState {
  artist : ArtistType;
  artistInfo : option ArtistInfoType
}.

(** [handleTrackChange] *)
Definition handleTrackChange (s : State) : list Effect :=
  match artistInfo s ≫= topTrack with
  | Some track =>
      match recording_name track with
      | Some recording_name_ =>
          if truthy recording_name_ then
            let newTrack :=
              [ mkListen 0
                  (mkTrackMetadata
                     (Types.name (artist s))
                     recording_name_
                     (release_name track)
                     (release_mbid track)
                     (recording_mbid track)) ] in
            [OnTrackChange newTrack]
          else []
      | None => []
      end
  | None => []
  end.

Definition MB_URL (artist : ArtistType) : string :=
  "https://musicbrainz.org/artist/" +:+ artist_mbid artist.

(** How the awaited [infoLookup(...)] ends. *)
Inductive Settled :=
| Resolved (artistApiInfo : ArtistInfoType)
| Rejected (error : Thrown).

(** [getArtistInfo] from its [await] on, for the [artist] it was started
    with. [MB_URL] is computed and not used again. *)
Definition getArtistInfo_settled (artist : ArtistType) (outcome : Settled)
    (s : State) : State * list Effect :=
  match outcome with
  | Resolved artistApiInfo =>
      let MB_URL := MB_URL artist in
      let newArtistInfo := artistApiInfo in
      let newArtistInfo :=
        mkArtistInfo (Some (Types.name artist)) (type newArtistInfo)
          (born newArtistInfo) (area newArtistInfo) (wiki newArtistInfo)
          (mbLink newArtistInfo) (topAlbum newArtistInfo)
          (topTrack newArtistInfo) in
      let newArtistInfo :=
        mkArtistInfo (name newArtistInfo) (Types.type artist)
          (born newArtistInfo) (area newArtistInfo) (wiki newArtistInfo)
          (mbLink newArtistInfo) (topAlbum newArtistInfo)
          (topTrack newArtistInfo) in
      (mkState (Panel.artist s) (Some newArtistInfo), [])
  | Rejected error => (s, [Toast (searchErrorToast error)])
  end.

(** The props of a [ReleaseCard]. *)
Record ReleaseCardProps := mkReleaseCard {
  releaseMBID : string;
  releaseName : string;
  caaID : Z;
  caaReleaseMBID : string;
  recordingMBID : option string
}.

(** What the panel renders once [artistInfo] is set. *)
Record View := mkView {
  view_name : option string;
  view_type : option string;
  view_born : string;
  view_area : string;
  view_wiki : string;
  mb_link_href : string;
  top_album_card : option ReleaseCardProps;
  top_track_card : option ReleaseCardProps
}.

Definition render (s : State) : option View :=
  info ← artistInfo s;
  Some (mkView (name info) (type info) (born info) (area info) (wiki info)
          (mbLink info)
          (track ← topTrack info;
           Some (mkReleaseCard (release_mbid track) (release_name track)
                   (caa_id track) (caa_release_mbid track) None))
          (track ← topTrack info;
           Some (mkReleaseCard (release_mbid track)
                   (default "Unknown" (recording_name track))
                   (caa_id track) (caa_release_mbid track)
                   (recording_mbid track)))).

Inductive Card := TopAlbumCard | TopTrackCard.

(** The card is on screen. *)
Definition rendered (card : Card) (s : State) : bool :=
  match render s with
  | Some v =>
      bool_decide (is_Some (match card with
                            | TopAlbumCard => top_album_card v
                            | TopTrackCard => top_track_card v
                            end))
  | None => false
  end.

(** What happens to a mounted panel. The [artist] object handed down is a
    new one each time its parent stores a main artist, so the lookup effect
    runs on every [ArtistProp]. *)
Inductive Event :=
| ArtistProp (artist : ArtistType)
| Click (card : Card)
| LookupSettled (startedFor : ArtistType) (outcome : Settled).

Definition step (s : State) (ev : Event) : State * list Effect :=
  match ev with
  | ArtistProp a =>
      (mkState a (artistInfo s), [InfoLookup (artist_mbid a)])
  | Click card =>
      (s, if rendered card s then handleTrackChange s else [])
  | LookupSettled a outcome => getArtistInfo_settled a outcome s
  end.

Definition mount (artist : ArtistType) : State * list Effect :=
  (mkState artist None, [InfoLookup (artist_mbid artist)]).

(** An artist and two lookup results, to run the definitions on. *)
Definition portishead : ArtistType :=
  mkArtist "8f6bd1e4-fbe1-4f50-aa9b-94c450ec0f11" "Portishead" (Some "Group").

Definition glory_box : RecordingType :=
  mkRecording "76df3287-6cda-33eb-8e9a-044b5e15ffdd" "Dummy"
    (Some "145f5c43-0ac2-4886-8b09-63d0e92ded5d") (Some "Glory Box")
    829521842 "76df3287-6cda-33eb-8e9a-044b5e15ffdd".

Definition sample_info : ArtistInfoType :=
  mkArtistInfo None None "1991" "Bristol" "Portishead are an English band."
    "https://musicbrainz.org/artist/8f6bd1e4-fbe1-4f50-aa9b-94c450ec0f11"
    None (Some glory_box).

(** A lookup result whose [mbLink] is empty. *)
Definition sample_info_no_link : ArtistInfoType :=
  mkArtistInfo None None "1991" "Bristol" "Portishead are an English band."
    EmptyString None (Some glory_box).

End Panel.

(* ===================================================================== *)
(** * The user search widget ([UserSearch])                               *)
(* ===================================================================== *)

(** lodash's [throttle(func, wait)] is [debounce(func, wait, { leading: true,
    maxWait: wait, trailing: true })]. The variables a debounced function
    closes over are its record; time is in milliseconds; [timerId] holds the
    time at which the pending timer is due. Each operation also tells
    whether it called [func]. *)
Module Lodash.

Record Debounced := mkDebounced {
  lastArgs : bool;
  timerId : option Z;
  lastCallTime : option Z;
  lastInvokeTime : Z
}.

(** The variables right after [throttle(func, wait)] returns. *)
Definition throttle : Debounced := mkDebounced false None None 0.

Section WithWait.
Variable wait : Z.

Definition invokeFunc (time : Z) (d : Debounced) : Debounced * bool :=
  (mkDebounced false (timerId d) (lastCallTime d) time, true).

Definition leadingEdge (time : Z) (d : Debounced) : Debounced * bool :=
  invokeFunc time
    (mkDebounced (lastArgs d) (Some (time + wait)) (lastCallTime d) time).

Definition remainingWait (time : Z) (d : Debounced) : Z :=
  let timeSinceLastCall := time - default 0 (lastCallTime d) in
  let timeSinceLastInvoke := time - lastInvokeTime d in
  let timeWaiting := wait - timeSinceLastCall in
  Z.min timeWaiting (wait - timeSinceLastInvoke).

Definition shouldInvoke (time : Z) (d : Debounced) : bool :=
  match lastCallTime d with
  | None => true
  | Some lastCallTime_ =>
      let timeSinceLastCall := time - lastCallTime_ in
      let timeSinceLastInvoke := time - lastInvokeTime d in
      (wait <=? timeSinceLastCall) || (timeSinceLastCall <? 0)
      || (wait <=? timeSinceLastInvoke)
  end.

Definition trailingEdge (time : Z) (d : Debounced) : Debounced * bool :=
  let d := mkDebounced (lastArgs d) None (lastCallTime d) (lastInvokeTime d) in
  if lastArgs d then invokeFunc time d
  else (mkDebounced false (timerId d) (lastCallTime d) (lastInvokeTime d),
        false).

Definition timerExpired (time : Z) (d : Debounced) : Debounced * bool :=
  if shouldInvoke time d then trailingEdge time d
  else (mkDebounced (lastArgs d) (Some (time + remainingWait time d))
          (lastCallTime d) (lastInvokeTime d), false).

(** A call of the throttled function at [time]. *)
Definition debounced (time : Z) (d : Debounced) : Debounced * bool :=
  let isInvoking := shouldInvoke time d in
  let d := mkDebounced true (timerId d) (Some time) (lastInvokeTime d) in
  match isInvoking, timerId d with
  | true, None => leadingEdge time d
  | true, Some _ =>
      invokeFunc time
        (mkDebounced (lastArgs d) (Some (time + wait)) (lastCallTime d)
           (lastInvokeTime d))
  | false, None =>
      (mkDebounced (lastArgs d) (Some (time + wait)) (lastCallTime d)
         (lastInvokeTime d), false)
  | false, Some _ => (d, false)
  end.

End WithWait.
End Lodash.

Module UserSearch.

Record SearchUser := mkSearchUser { user_name : string }.

Record UserSearchProps := mkProps {
  placeholder : string;
  clearOnSelect : option bool;
  initialValue : option string
}.

(** What the widget asks of the outside world. *)
Inductive Effect :=
| SearchUsers (query : string)
| OnSelectUser (userName : string)
| Toast (call : ToastCall).

(** The [useState] cells. *)
Record State := mkState {
  newUser : string;
  userSearchResults : list SearchUser
}.

(** The throttled function built by one render: [searchUsers] closes over
    that render's [newUser]. *)
Record Throttled := mkThrottled {
  closure_newUser : string;
  variables : Lodash.Debounced
}.

(** A mounted widget: its state, and the throttled functions of earlier
    renders whose timer is still pending. *)
Record Widget := mkWidget {
  state : State;
  pending : list Throttled
}.

(** [searchUsers] up to its [await], in the render whose [newUser] is
    [query]. *)
Definition searchUsers (query : string) : list Effect := [SearchUsers query].

(** How the awaited [APIService.searchUsers(...)] ends. *)
Inductive Settled :=
| Resolved (users : list SearchUser)
| Rejected (error : Thrown).

Definition searchUsers_settled (outcome : Settled) (s : State)
    : State * list Effect :=
  match outcome with
  | Resolved users => (mkState (newUser s) users, [])
  | Rejected error =>
      (s, [Toast (mkToastCall (mkToastMsg "Error" (message_of error)) "error")])
  end.

(** A render and its effect, when the effect is due. The function body runs
    [_throttle(..., 300)], so this render has a throttled function of its
    own, and the effect calls that one. *)
Definition searchEffect (time : Z) (w : Widget) : Widget * list Effect :=
  let throttledSearchUsers :=
    mkThrottled (newUser (state w)) Lodash.throttle in
  if negb (truthy (newUser (state w))) then (w, [])
  else
    let '(d, called) :=
      Lodash.debounced 300 time (variables throttledSearchUsers) in
    let called_now :=
      if called then searchUsers (closure_newUser throttledSearchUsers)
      else [] in
    let kept :=
      match Lodash.timerId d with
      | Some _ => [mkThrottled (closure_newUser throttledSearchUsers) d]
      | None => []
      end in
    (mkWidget (state w) (pending w ++ kept), called_now).

(** The commit from [prev]: the effect depends on [newUser] alone. *)
Definition render (time : Z) (prev : State) (w : Widget) : Widget * list Effect :=
  if String.eqb (newUser prev) (newUser (state w)) then (w, [])
  else searchEffect time w.

(** What happens to a mounted widget. *)
Inductive Event :=
| Change (value : string)
| ResultClick (user : string)
| SearchSettled (outcome : Settled)
| TimerFires (i : nat).

Definition handleResultClick (props : UserSearchProps) (user : string)
    (s : State) : State * list Effect :=
  (mkState (if default false (clearOnSelect props) then EmptyString else user) [],
   [OnSelectUser user]).

Definition step (props : UserSearchProps) (time : Z) (w : Widget) (ev : Event)
    : Widget * list Effect :=
  match ev with
  | Change value =>
      render time (state w)
        (mkWidget (mkState value (userSearchResults (state w))) (pending w))
  | ResultClick user =>
      let '(s, fx) := handleResultClick props user (state w) in
      let '(w', fx') := render time (state w) (mkWidget s (pending w)) in
      (w', fx ++ fx')
  | SearchSettled outcome =>
      let '(s, fx) := searchUsers_settled outcome (state w) in
      (mkWidget s (pending w), fx)
  | TimerFires i =>
      match pending w !! i with
      | Some t =>
          let '(d, called) := Lodash.timerExpired 300 time (variables t) in
          (mkWidget (state w)
             (match Lodash.timerId d with
              | Some _ => <[i := mkThrottled (closure_newUser t) d]> (pending w)
              | None => delete i (pending w)
              end),
           if called then searchUsers (closure_newUser t) else [])
      | None => (w, [])
      end
  end.

(** The first render, at [time], and its effect. *)
Definition mount (props : UserSearchProps) (time : Z) : Widget * list Effect :=
  searchEffect time
    (mkWidget (mkState (default EmptyString (initialValue props)) []) []).

(** A run of timed events, with the time of each effect. *)
Fixpoint run (props : UserSearchProps) (w : Widget) (evs : list (Z * Event))
    : Widget * list (Z * Effect) :=
  match evs with
  | [] => (w, [])
  | (time, ev) :: evs =>
      let '(w, fx) := step props time w ev in
      let '(w, log) := run props w evs in
      (w, map (pair time) fx ++ log)
  end.

(** The search requests of a log. *)
Definition requests (log : list (Z * Effect)) : list (Z * string) :=
  omap (λ '(time, e),
          match e with SearchUsers q => Some (time, q) | _ => None end) log.

(** Props without an initial value, to run the definitions on. *)
Definition no_props : UserSearchProps := mkProps "Search users" None None.

(** The requests sent at a time in the window [[from, from + 300)]. *)
Definition in_window (from : Z) (log : list (Z * Effect)) : list (Z * string) :=
  List.filter (λ '(time, _), (from <=? time) && (time <? from + 300))
    (requests log).

End UserSearch.

(* ===================================================================== *)
(** * What the explorer renders, and what a run of events asks for        *)
(* ===================================================================== *)

Module ExplorerView.
Import Explorer.

Section WithGraph.
Context `{TinyColor} {GraphNode GraphLink : Type}.

(** The render-ready graph: [{ nodes, links }]. *)
Record GraphDataType := mkGraph {
  nodes : list GraphNode;
  links : list GraphLink
}.

(** Modelled from the spec: [generateTransformedArtists] is imported from a
    file outside the two source files; it is a pure function of the main
    artist, the displayed list, the two colours and the limit. *)
Variable generateTransformedArtists :
  ArtistType → list ArtistType → Color → Color → Z → GraphDataType.

(** [transformedArtists] *)
Definition transformedArtists (s : State) : GraphDataType :=
  match mainArtist s with
  | Some mainArtist_ =>
      generateTransformedArtists mainArtist_ (similarArtistsList s)
        (colors s).1 (colors s).2 (similarArtistsLimit s)
  | None => mkGraph [] []
  end.

(** The props that [Data] hands to its children: the limit shown by the
    search box, the data of the graph, the artist of the panel when there is
    a panel, the listens of the player. *)
Record View := mkView {
  currentSimilarArtistsLimit : Z;
  graph_data : GraphDataType;
  panel_artist : option ArtistType;
  listens : list Listen
}.

Definition render (s : State) : View :=
  mkView (similarArtistsLimit s) (transformedArtists s) (mainArtist s)
    (default [] (currentTracks s)).

End WithGraph.

(** A graph transform to run the definitions on: the main artist and the
    displayed artists as nodes, a link from the main artist to each of the
    displayed ones. *)
Definition sample_transform `{TinyColor} (mainArtist_ : ArtistType)
    (similar : list ArtistType) (color1 color2 : Color) (limit : Z)
    : GraphDataType (GraphNode:=ArtistType)
        (GraphLink:=ArtistType * ArtistType) :=
  mkGraph (mainArtist_ :: similar) (pair mainArtist_ <$> similar).

(** The displayed list is empty or the slice of the complete list. *)
Definition in_sync `{TinyColor} (s : State) : Prop :=
  similarArtistsList s = []
  ∨ similarArtistsList s
    = slice (completeSimilarArtistsList s) 0 (similarArtistsLimit s).

(** The artists selected one after the other in a run of events: each
    [OnArtistChange] to an mbid that is not the current one. *)
Fixpoint selections (current : string) (evs : list Event) : list string :=
  match evs with
  | [] => []
  | OnArtistChange mbid :: evs =>
      if String.eqb current mbid then selections current evs
      else mbid :: selections mbid evs
  | _ :: evs => selections current evs
  end.

(** The errors of the failed fetches of a run of events. *)
Definition failures (evs : list Event) : list Thrown :=
  omap (λ ev, match ev with
              | FetchSettled (Rejected error) => Some error
              | _ => None
              end) evs.

(** The event does not run the slice effect when the limit is [limit]: it
    is neither a change of the limit to another value nor a response that
    holds a dataset entry. *)
Definition keeps_display (limit : Z) (ev : Event) : Prop :=
  match ev with
  | OnSimilarArtistsLimitChange limit' => limit' = limit
  | FetchSettled (Resolved dataResponse) => datasets dataResponse = []
  | _ => True
  end.

(** The event is not a response that holds a dataset entry. *)
Definition without_dataset (ev : Event) : Prop :=
  match ev with
  | FetchSettled (Resolved dataResponse) => datasets dataResponse = []
  | _ => True
  end.

End ExplorerView.

(* ===================================================================== *)
(** * Runs of the panel, and the panel inside the explorer                *)
(* ===================================================================== *)

Module PanelRuns.
Import Panel.

Fixpoint run (s : State) (evs : list Event) : State * list Effect :=
  match evs with
  | [] => (s, [])
  | ev :: evs =>
      let '(s, fx) := step s ev in
      let '(s, fx') := run s evs in
      (s, fx ++ fx')
  end.

(** The last lookup of a run that ended well: the artist it was started for
    and its result. *)
Definition last_resolved (evs : list Event)
    : option (ArtistType * ArtistInfoType) :=
  last (omap (λ ev, match ev with
                    | LookupSettled a (Resolved artistApiInfo) =>
                        Some (a, artistApiInfo)
                    | _ => None
                    end) evs).

(** The lookups that a list of effects starts, by mbid, and its
    notifications. *)
Definition lookups (fx : list Effect) : list string :=
  omap (λ e, match e with InfoLookup mbid => Some mbid | _ => None end) fx.
Definition toasts (fx : list Effect) : list ToastCall :=
  omap (λ e, match e with Toast call => Some call | _ => None end) fx.

(** The artists handed to the panel in a run, and the errors of its failed
    lookups. *)
Definition artists_given (evs : list Event) : list ArtistType :=
  omap (λ ev, match ev with ArtistProp a => Some a | _ => None end) evs.
Definition failed_lookups (evs : list Event) : list Thrown :=
  omap (λ ev, match ev with
              | LookupSettled _ (Rejected error) => Some error
              | _ => None
              end) evs.

(** The event is not a lookup that ended well. *)
Definition unresolved (ev : Event) : Prop :=
  match ev with
  | LookupSettled _ (Resolved _) => False
  | _ => True
  end.

End PanelRuns.

Module App.

(** [<Panel artist={mainArtist} onTrackChange={setCurrentTracks} />]: what
    the panel reports through [onTrackChange] is an event of the explorer;
    its lookups and notifications are its own. *)
Definition forward (e : Panel.Effect) : option Explorer.Event :=
  match e with
  | Panel.OnTrackChange currentTrack => Some (Explorer.OnTrackChange currentTrack)
  | _ => None
  end.

End App.

(* ===================================================================== *)
(** * What the user search widget renders                                 *)
(* ===================================================================== *)

Module UserSearchView.
Import UserSearch.

(** The [<select>] of suggestions: its [size] and the values of its
    options. *)
Record SelectView := mkSelect {
  size : nat;
  options : list string
}.

(** The [<input>] with its [value] and [aria-haspopup], and the [<select>]
    when there is one. *)
Record View := mkView {
  value : string;
  aria_haspopup : bool;
  suggestions : option SelectView
}.

(** [Boolean(userSearchResults?.length)] *)
Definition has_results (s : State) : bool :=
  negb (length (userSearchResults s) =? 0)%nat.

Definition view (s : State) : View :=
  mkView (newUser s) (has_results s)
    (if has_results s
     then Some (mkSelect (Nat.min (length (userSearchResults s)) 8)
                  (map user_name (userSearchResults s)))
     else None).

(** The text after an event, from the text before it. *)
Definition text_after (props : UserSearchProps) (current : string)
    (ev : Event) : string :=
  match ev with
  | Change value => value
  | ResultClick user =>
      if default false (clearOnSelect props) then EmptyString else user
  | _ => current
  end.

(** The changes of the text to a new value that is not empty, in a run of
    timed events, each with its time. *)
Fixpoint text_changes (props : UserSearchProps) (current : string)
    (evs : list (Z * Event)) : list (Z * string) :=
  match evs with
  | [] => []
  | (time, ev) :: evs =>
      let next := text_after props current ev in
      (if String.eqb current next || negb (truthy next) then []
       else [(time, next)])
      ++ text_changes props next evs
  end.

(** No throttled function with a pending timer holds a call that is yet
    to be made. *)
Definition quiet (w : Widget) : Prop :=
  Forall (λ t, Lodash.lastArgs (variables t) = false) (pending w).

(** The event neither brings a search result nor selects a suggestion. *)
Definition keeps_results (ev : Z * Event) : Prop :=
  match ev.2 with
  | SearchSettled (Resolved _) | ResultClick _ => False
  | _ => True
  end.

End UserSearchView.

(* ===================================================================== *)
(** * Checks on a route table                                             *)
(* ===================================================================== *)

Module RoutesChecks.
Import Routes.

(** Every entry of a table with the matchers that lead to it, parents
    before their children. *)
Fixpoint labelled (above : list Matcher) (r : RouteObject)
    : list (list Matcher * RouteObject) :=
  (above ++ [matcher r], r)
  :: flat_map (labelled (above ++ [matcher r])) (children r).

(** The entry names a loader: its own [loader], or one that its [lazy]
    function returns. *)
Definition preloads (r : RouteObject) : bool :=
  bool_decide (is_Some (loader r))
  || bool_decide (is_Some (lazy r ≫= lazy_loader)).

(** The entries of [getIndexRoutes] that name a loader. *)
Definition preloaded : list (list Matcher) :=
  (List.filter (λ entry, preloads entry.2)
     (flat_map (labelled []) getIndexRoutes)).*1.

Global Instance Matcher_eq_dec : EqDecision Matcher.
Proof. solve_decision. Defined.

(** An entry is sound when an index entry has neither path nor children,
    any other entry has a path, no two of its children match the same way,
    and it has an [element] or a [lazy] function, not both. *)
Definition sound (r : RouteObject) : Prop :=
  (index r = true → path r = None ∧ children r = [])
  ∧ (index r = false → is_Some (path r))
  ∧ NoDup (matcher <$> children r)
  ∧ (is_Some (element r) ↔ lazy r = None).

End RoutesChecks.

(* ===================================================================== *)
(** * Properties of the route table                                       *)
(* ===================================================================== *)

Module RoutesSpec.
Import Routes.

Lemma getIndexRoutes_single_root :
  ∃ outer, getIndexRoutes = [outer] ∧ path outer = Some "/"
           ∧ element outer = Some "Outlet" ∧ lazy outer = None.
Proof. eexists. repeat split; reflexivity. Qed.

Lemma feed_layout_is_nested :
  ∃ outer feed,
    getIndexRoutes = [outer]
    ∧ last (children outer) = Some feed
    ∧ path feed = Some "/"
    ∧ map path (children feed) = [Some "/feed/"; Some "/recent/"].
Proof. eexists _, _. repeat split; reflexivity. Qed.

(** C2, as stated, fails on the code: the array returned by
    [getIndexRoutes] has one top-level entry whose path is [/], not two. The
    feed layout, the other entry at [/], is a child of that entry. *)
Lemma getIndexRoutes_top_level_roots_not_two :
  length (entries_at "/" getIndexRoutes) ≠ 2%nat
  ∧ length getIndexRoutes = 1%nat.
Proof. split; [vm_compute; discriminate | reflexivity]. Qed.

(** C2 (amended): the route table holds exactly the enumerated paths, all
    nested under a single top-level entry at [/]; two entries of the table
    have the path [/], that top-level entry and the feed layout, which is the
    last of its children and has the children [/feed/] and [/recent/]; the
    three statistics charts resolve to the same page and loader pair. *)
Theorem getIndexRoutes_paths :
  map path_tree getIndexRoutes = enumerated_paths
  ∧ length (entries_at "/" getIndexRoutes) = 1%nat
  ∧ (∃ outer feed,
       getIndexRoutes = [outer]
       ∧ last (children outer) = Some feed
       ∧ entries_at "/" (flat_map all_routes getIndexRoutes) = [outer; feed]
       ∧ map path (children feed) = [Some "/feed/"; Some "/recent/"])
  ∧ resolves_to ["/"; "/statistics/"; "top-artists/"] = Some entityChart
  ∧ resolves_to ["/"; "/statistics/"; "top-albums/"] = Some entityChart
  ∧ resolves_to ["/"; "/statistics/"; "top-tracks/"] = Some entityChart.
Proof.
  split; [reflexivity |].
  split; [reflexivity |].
  split; [eexists _, _; repeat split; reflexivity |].
  repeat split; reflexivity.
Qed.

End RoutesSpec.

(* ===================================================================== *)
(** * Properties of the explorer                                          *)
(* ===================================================================== *)

Module ExplorerSpec.
Import Explorer.

(** ** The notification store and [slice] *)

Lemma toast_error_dom policy (shown : gmap string ToastMsg) call :
  dom (toast_error policy shown call) = {[toastId call]} ∪ dom shown.
Proof.
  unfold toast_error.
  destruct policy, (shown !! toastId call) eqn:Hshown;
    rewrite ?dom_insert_L; try done.
  apply elem_of_dom_2 in Hshown.
  apply set_eq; intros id. rewrite elem_of_union, elem_of_singleton.
  split; [tauto | by intros [->|?]].
Qed.

Lemma toast_error_lookup policy (shown : gmap string ToastMsg) call :
  shown !! toastId call = None →
  toast_error policy shown call !! toastId call = Some (content call).
Proof.
  intros Hfree. unfold toast_error. rewrite Hfree.
  destruct policy; apply lookup_insert_eq.
Qed.

Lemma slice_from_0 {A} (l : list A) (limit : Z) :
  0 ≤ limit → slice l 0 limit = take (Z.to_nat limit) l.
Proof.
  intros Hpos. unfold slice; simpl.
  destruct (Z.ltb_spec limit 0) as [|_]; [lia |].
  replace (0 `min` Z.of_nat (length l)) with 0 by lia.
  rewrite Z.sub_0_r, drop_0.
  destruct (Z.le_gt_cases limit (Z.of_nat (length l))) as [Hle|Hgt].
  - f_equal. lia.
  - rewrite !take_ge; [done | lia | lia].
Qed.

Section WithColors.
Context `{TinyColor}.

(** ** What [processData] touches *)

Lemma filter_isDatasetResponse (dataResponse : ApiResponseType) :
  List.filter isDatasetResponse dataResponse
  = map Dataset (datasets dataResponse).
Proof.
  induction dataResponse as [|[m|d] rest IH]; simpl; [done | done |].
  by rewrite IH.
Qed.

Lemma processData_similarArtistsList dataResponse (s : State) :
  similarArtistsList (processData dataResponse s) = similarArtistsList s.
Proof.
  unfold processData.
  by destruct (List.filter isDatasetResponse dataResponse).
Qed.

Lemma processData_similarArtistsLimit dataResponse (s : State) :
  similarArtistsLimit (processData dataResponse s) = similarArtistsLimit s.
Proof.
  unfold processData.
  by destruct (List.filter isDatasetResponse dataResponse).
Qed.

Lemma processData_artistMBID dataResponse (s : State) :
  artistMBID (processData dataResponse s) = artistMBID s.
Proof.
  unfold processData.
  by destruct (List.filter isDatasetResponse dataResponse).
Qed.

Lemma processData_colors dataResponse (s : State) :
  colors (processData dataResponse s) = rotate (colors s).
Proof.
  unfold processData.
  by destruct (List.filter isDatasetResponse dataResponse).
Qed.

Lemma processData_no_dataset dataResponse (s : State) :
  datasets dataResponse = [] →
  processData dataResponse s = setColors rotate s.
Proof.
  intros Hnone. unfold processData.
  by rewrite filter_isDatasetResponse, Hnone.
Qed.

Lemma storesCompleteList_datasets dataResponse :
  storesCompleteList dataResponse
  = bool_decide (datasets dataResponse ≠ []).
Proof.
  unfold storesCompleteList. rewrite filter_isDatasetResponse.
  by destruct (datasets dataResponse).
Qed.

(** ** What an event touches *)

(** The outcome of one event, field by field. *)
Lemma step_colors (s : State) ev :
  colors (step s ev).1
  = match ev with
    | FetchSettled (Resolved _) => rotate (colors s)
    | _ => colors s
    end.
Proof.
  destruct ev as [mbid|limit|tracks|[dataResponse|error]];
    unfold step, commit; simpl;
    repeat match goal with
           | |- context [if ?b then _ else _] => destruct b
           end; simpl; try done;
    apply processData_colors.
Qed.

Lemma step_resolved (s : State) dataResponse :
  step s (FetchSettled (Resolved dataResponse))
  = (if storesCompleteList dataResponse
     then sliceEffect (processData dataResponse s)
     else processData dataResponse s, []).
Proof.
  unfold step, fetchData_settled, commit.
  rewrite processData_artistMBID, String.eqb_refl.
  rewrite processData_similarArtistsLimit, Z.eqb_refl.
  by rewrite orb_false_r.
Qed.

Lemma step_rejected (s : State) error :
  step s (FetchSettled (Rejected error))
  = (setSimilarArtistsList [] s, [Toast (searchErrorToast error)]).
Proof.
  unfold step, fetchData_settled, commit; simpl.
  by rewrite String.eqb_refl, Z.eqb_refl.
Qed.

Lemma step_limit (s : State) limit :
  limit ≠ similarArtistsLimit s →
  step s (OnSimilarArtistsLimitChange limit)
  = (sliceEffect (setSimilarArtistsLimit limit s), []).
Proof.
  intros Hne. unfold step, commit; simpl.
  rewrite String.eqb_refl.
  destruct (Z.eqb_spec (similarArtistsLimit s) limit); [congruence | done].
Qed.

Lemma run_cons (s : State) ev evs :
  run s (ev :: evs)
  = ((run (step s ev).1 evs).1, (step s ev).2 ++ (run (step s ev).1 evs).2).
Proof.
  simpl. destruct (step s ev) as [s1 fx]; simpl.
  by destruct (run s1 evs).
Qed.

Lemma iter_rotate_shift n (pair : Color * Color) :
  Nat.iter n rotate (rotate pair) = rotate (Nat.iter n rotate pair).
Proof. induction n as [|n IH]; simpl; [done | by rewrite IH]. Qed.

(** ** Processing a response *)

(** C1: when a response has at least one dataset entry, [processData] sets
    the main artist to the first row of the first dataset entry and the
    complete list to the data of the second dataset entry, or to the empty
    list when there is none; two responses with the same dataset entries
    give the same state, so the other entries have no effect. *)
Theorem processData_datasets (dataResponse : ApiResponseType)
    (first : DatasetResponseType) (others : list DatasetResponseType)
    (s : State) :
  datasets dataResponse = first :: others →
  mainArtist (processData dataResponse s) = head (dataset_data first)
  ∧ completeSimilarArtistsList (processData dataResponse s)
    = from_option dataset_data [] (head others)
  ∧ ∀ dataResponse',
      datasets dataResponse' = datasets dataResponse →
      processData dataResponse' s = processData dataResponse s.
Proof.
  intros Hds. split_and!.
  - unfold processData. rewrite filter_isDatasetResponse, Hds. done.
  - unfold processData. rewrite filter_isDatasetResponse, Hds.
    by destruct others.
  - intros dataResponse' Hsame. unfold processData.
    by rewrite !filter_isDatasetResponse, Hsame.
Qed.

(** C9: a response without a dataset entry leaves the main artist, the
    complete list and the displayed list as they were, and raises no
    notification (it sends no request either). *)
Theorem no_dataset_keeps_artists (dataResponse : ApiResponseType) (s : State) :
  datasets dataResponse = [] →
  mainArtist (step s (FetchSettled (Resolved dataResponse))).1 = mainArtist s
  ∧ completeSimilarArtistsList
      (step s (FetchSettled (Resolved dataResponse))).1
    = completeSimilarArtistsList s
  ∧ similarArtistsList (step s (FetchSettled (Resolved dataResponse))).1
    = similarArtistsList s
  ∧ (step s (FetchSettled (Resolved dataResponse))).2 = [].
Proof.
  intros Hnone.
  rewrite step_resolved, storesCompleteList_datasets, Hnone.
  by rewrite (processData_no_dataset _ _ Hnone).
Qed.

(** ** The colour pair *)

(** C3: each processed response replaces the colour pair by
    [(prevColors[1], tetrad(prevColors[1])[1])], and nothing else changes
    it: after any run of events the pair is the earlier pair rotated once
    per processed response, from the pair that [colorGenerator] made of the
    colour drawn at mount. *)
Theorem colors_follow_rotation (s : State) (dataResponse : ApiResponseType)
    (evs : list Event) (initialColor : Color) :
  colors (step s (FetchSettled (Resolved dataResponse))).1
  = ((colors s).2, tetrad_1 (colors s).2)
  ∧ colors (run s evs).1 = Nat.iter (processed evs) rotate (colors s)
  ∧ colors (run (mount initialColor).1 evs).1
    = Nat.iter (processed evs) rotate (initialColor, tetrad_1 initialColor).
Proof.
  assert (Hrun : ∀ s0 : State,
            colors (run s0 evs).1 = Nat.iter (processed evs) rotate (colors s0)).
  { induction evs as [|ev evs IH]; intros s0; [done |].
    rewrite run_cons; simpl. rewrite IH, step_colors.
    unfold processed; simpl.
    destruct ev as [mbid|limit|tracks|[resp|error]]; simpl; try done.
    apply iter_rotate_shift. }
  split_and!; [by rewrite step_colors | apply Hrun | by rewrite Hrun].
Qed.

(** ** Failures *)

(** C4: a failed fetch or parse empties the displayed list and makes one
    call to the notification layer, titled "Search Error", under the id
    "error", with the message of an error object or the thrown value itself;
    from an empty screen this shows that one notification, and a later
    failure adds no notification to the one pending. *)
Theorem failed_fetch_clears_and_notifies (s : State) (error : Thrown)
    (policy : DuplicatePolicy) :
  similarArtistsList (step s (FetchSettled (Rejected error))).1 = []
  ∧ (step s (FetchSettled (Rejected error))).2
    = [Toast (mkToastCall
                (mkToastMsg "Search Error"
                   match error with
                   | ThrownObject message => message
                   | ThrownString raw => raw
                   end)
                "error")]
  ∧ toast_all policy ∅
      (toast_calls (step s (FetchSettled (Rejected error))).2)
    = {[ "error" := mkToastMsg "Search Error"
                      match error with
                      | ThrownObject message => message
                      | ThrownString raw => raw
                      end ]}
  ∧ ∀ (shown : gmap string ToastMsg) (s' : State) (error' : Thrown),
      size (toast_all policy
              (toast_all policy shown
                 (toast_calls (step s (FetchSettled (Rejected error))).2))
              (toast_calls (step s' (FetchSettled (Rejected error'))).2))
      = size (toast_all policy shown
                (toast_calls (step s (FetchSettled (Rejected error))).2)).
Proof.
  rewrite step_rejected. split_and!.
  - done.
  - by destruct error.
  - simpl. unfold toast_error. rewrite lookup_empty.
    destruct policy, error; by rewrite insert_empty.
  - intros shown s' error'. rewrite step_rejected. simpl.
    rewrite <- !size_dom. f_equal.
    rewrite !toast_error_dom. simpl.
    apply set_eq; intros id. rewrite !elem_of_union, !elem_of_singleton.
    tauto.
Qed.

(** C10: a failed fetch leaves the complete list and the main artist as
    they were and empties the displayed list only; a change of the limit
    after the failure fills the displayed list again from the complete list
    kept from before the failure. *)
Theorem failed_fetch_keeps_complete_list (s : State) (error : Thrown)
    (limit : Z) :
  limit ≠ similarArtistsLimit s →
  completeSimilarArtistsList (step s (FetchSettled (Rejected error))).1
  = completeSimilarArtistsList s
  ∧ mainArtist (step s (FetchSettled (Rejected error))).1 = mainArtist s
  ∧ similarArtistsList (step s (FetchSettled (Rejected error))).1 = []
  ∧ similarArtistsList
      (step (step s (FetchSettled (Rejected error))).1
         (OnSimilarArtistsLimitChange limit)).1
    = slice (completeSimilarArtistsList s) 0 limit.
Proof.
  intros Hchange. rewrite step_rejected. split_and!; try done.
  by rewrite step_limit.
Qed.

(** ** The limit *)

(** C5: when the limit changes, the displayed list becomes the slice
    [completeList.slice(0, limit)] of the unchanged complete list, its first
    [limit] entries, and no request is sent. *)
Theorem limit_change_reslices (s : State) (limit : Z) :
  limit ≠ similarArtistsLimit s →
  0 ≤ limit →
  similarArtistsList (step s (OnSimilarArtistsLimitChange limit)).1
  = take (Z.to_nat limit) (completeSimilarArtistsList s)
  ∧ completeSimilarArtistsList (step s (OnSimilarArtistsLimitChange limit)).1
    = completeSimilarArtistsList s
  ∧ (step s (OnSimilarArtistsLimitChange limit)).2 = [].
Proof.
  intros Hchange Hpos. rewrite step_limit by done.
  split_and!; try done.
  by apply slice_from_0.
Qed.

End WithColors.

(** ** The theorems on a sample response *)

Example mount_then_response :
  (run (mount (H:=HueWheel) 0).1 [FetchSettled (Resolved sample_response)]).1
  = sample_state
  ∧ (mount (H:=HueWheel) 0).2 = [Fetch (BASE_URL +:+ ARTIST_MBID)].
Proof. split; reflexivity. Qed.

Lemma processData_datasets_witness :
  datasets sample_response = [sample_main; sample_similar]
  ∧ mainArtist (processData sample_response sample_state) = Some portishead
  ∧ completeSimilarArtistsList (processData sample_response sample_state)
    = [massive_attack; tricky; bjork].
Proof.
  split; [reflexivity |].
  destruct (processData_datasets (H:=HueWheel) sample_response
              sample_main [sample_similar] sample_state eq_refl)
    as (Hmain & Hcomplete & _).
  split; [exact Hmain | exact Hcomplete].
Defined.

Lemma no_dataset_keeps_artists_witness :
  datasets sample_markup_only = []
  ∧ mainArtist
      (step sample_state (FetchSettled (Resolved sample_markup_only))).1
    = Some portishead
  ∧ (step sample_state (FetchSettled (Resolved sample_markup_only))).2 = [].
Proof.
  split; [reflexivity |].
  destruct (no_dataset_keeps_artists (H:=HueWheel) sample_markup_only
              sample_state eq_refl)
    as (Hmain & _ & _ & Hquiet).
  split; [exact Hmain | exact Hquiet].
Defined.

Lemma failed_fetch_keeps_complete_list_witness :
  2 ≠ similarArtistsLimit sample_state
  ∧ similarArtistsList
      (step (step sample_state
               (FetchSettled (Rejected (ThrownObject "Failed to fetch")))).1
         (OnSimilarArtistsLimitChange 2)).1
    = [massive_attack; tricky].
Proof.
  assert (Hchange : 2 ≠ similarArtistsLimit sample_state) by discriminate.
  split; [exact Hchange |].
  destruct (failed_fetch_keeps_complete_list (H:=HueWheel) sample_state
              (ThrownObject "Failed to fetch") 2 Hchange)
    as (_ & _ & _ & Hrefilled).
  exact Hrefilled.
Defined.

Lemma limit_change_reslices_witness :
  1 ≠ similarArtistsLimit sample_state
  ∧ 0 ≤ 1
  ∧ similarArtistsList (step sample_state (OnSimilarArtistsLimitChange 1)).1
    = [massive_attack]
  ∧ (step sample_state (OnSimilarArtistsLimitChange 1)).2 = [].
Proof.
  assert (Hchange : 1 ≠ similarArtistsLimit sample_state) by discriminate.
  assert (Hpos : 0 ≤ 1) by lia.
  split; [exact Hchange |]. split; [exact Hpos |].
  destruct (limit_change_reslices (H:=HueWheel) sample_state 1 Hchange Hpos)
    as (Hslice & _ & Hquiet).
  split; [exact Hslice | exact Hquiet].
Defined.

End ExplorerSpec.

(* ===================================================================== *)
(** * Properties of the artist info panel                                 *)
(* ===================================================================== *)

Module PanelSpec.
Import Panel.

Lemma rendered_topTrack (s : State) (card : Card) (track : RecordingType) :
  artistInfo s ≫= topTrack = Some track → rendered card s = true.
Proof.
  unfold rendered, render. intros Htrack.
  destruct (artistInfo s) as [info|]; simpl in *; [| done].
  rewrite Htrack. by destruct card.
Qed.

(** A card is on screen only when there is a top track. *)
Lemma rendered_only_with_topTrack (s : State) (card : Card) :
  rendered card s = true → is_Some (artistInfo s ≫= topTrack).
Proof.
  unfold rendered, render.
  destruct (artistInfo s) as [info|]; simpl; [| done].
  destruct (topTrack info); [by eexists | by destruct card].
Qed.

(** An empty recording name counts as no name. *)
Lemma click_empty_recording_name (s : State) (card : Card)
    (track : RecordingType) :
  artistInfo s ≫= topTrack = Some track →
  recording_name track = Some EmptyString →
  step s (Click card) = (s, []).
Proof.
  intros Htrack Hname. simpl.
  rewrite (rendered_topTrack _ _ _ Htrack).
  unfold handleTrackChange. by rewrite Htrack, Hname.
Qed.

(** C7: a click on either card, when the top track has a recording name,
    reports one list of one listen to the callback, with [listened_at] 0,
    the name of the input artist, and the track name, release name, release
    mbid and recording mbid of the top track; when the top track has no
    recording name, the click reports nothing. *)
Theorem click_reports_top_track (s : State) (card : Card)
    (track : RecordingType) :
  artistInfo s ≫= topTrack = Some track →
  (∀ track_name : string,
     recording_name track = Some track_name →
     track_name ≠ EmptyString →
     step s (Click card)
     = (s, [OnTrackChange
              [ {| listened_at := 0;
                   track_metadata :=
                     {| artist_name := Types.name (artist s);
                        Types.track_name := track_name;
                        Types.release_name := release_name track;
                        Types.release_mbid := release_mbid track;
                        Types.recording_mbid := recording_mbid track |} |} ]]))
  ∧ (recording_name track = None → step s (Click card) = (s, [])).
Proof.
  intros Htrack. simpl.
  rewrite (rendered_topTrack _ _ _ Htrack).
  unfold handleTrackChange. rewrite Htrack. split.
  - intros track_name Hname Hnonempty. rewrite Hname.
    unfold truthy. by destruct (String.eqb_spec track_name EmptyString).
  - by intros ->.
Qed.

Lemma click_reports_top_track_witness :
  step (mkState portishead (Some sample_info)) (Click TopTrackCard)
  = (mkState portishead (Some sample_info),
     [OnTrackChange
        [ mkListen 0
            (mkTrackMetadata "Portishead" "Glory Box" "Dummy"
               "76df3287-6cda-33eb-8e9a-044b5e15ffdd"
               (Some "145f5c43-0ac2-4886-8b09-63d0e92ded5d")) ]]).
Proof.
  destruct (click_reports_top_track (mkState portishead (Some sample_info))
              TopTrackCard glory_box eq_refl) as [Hreport _].
  apply (Hreport "Glory Box" eq_refl). discriminate.
Defined.

(** The link on screen after a lookup is the [mbLink] of the lookup result:
    [getArtistInfo] adds the name and the type and nothing else. *)
Lemma getArtistInfo_keeps_mbLink (s : State) (a : ArtistType)
    (artistApiInfo : ArtistInfoType) :
  mb_link_href <$> render (step s (LookupSettled a (Resolved artistApiInfo))).1
  = Some (mbLink artistApiInfo).
Proof. done. Qed.

(** C8 (the code at a failing input): with a lookup result whose [mbLink]
    is empty, the link on screen is empty, not the MusicBrainz address of
    the artist that [getArtistInfo] computes as [MB_URL]. *)
Theorem getArtistInfo_drops_MB_URL :
  mb_link_href
    <$> render (step (mount portishead).1
                  (LookupSettled portishead (Resolved sample_info_no_link))).1
  = Some EmptyString
  ∧ MB_URL portishead
    = "https://musicbrainz.org/artist/8f6bd1e4-fbe1-4f50-aa9b-94c450ec0f11"
  ∧ mb_link_href
      <$> render (step (mount portishead).1
                    (LookupSettled portishead (Resolved sample_info_no_link))).1
    ≠ Some (MB_URL portishead).
Proof. split_and!; [reflexivity | reflexivity | discriminate]. Qed.

End PanelSpec.

(* ===================================================================== *)
(** * Properties of the user search widget                                *)
(* ===================================================================== *)

Module UserSearchSpec.
Import UserSearch.

(** ** One throttled function, kept across calls *)

(** Called at 0 and again at 100, one throttled function calls [func] at 0
    only; its timer, due at 300, makes the second call. *)
Example throttle_kept_across_calls :
  let '(d0, called0) := Lodash.debounced 300 0 Lodash.throttle in
  let '(d1, called1) := Lodash.debounced 300 100 d0 in
  let '(d2, called2) := Lodash.timerExpired 300 300 d1 in
  (called0, called1, called2) = (true, false, true)
  ∧ Lodash.timerId d1 = Some 300.
Proof. split; reflexivity. Qed.

(** The first call of a throttled function calls [func] at once, whatever
    the time. *)
Lemma throttle_first_call (wait time : Z) :
  (Lodash.debounced wait time Lodash.throttle).2 = true.
Proof. done. Qed.

(** A throttled function called once does not call [func] when its timer
    fires. *)
Lemma throttle_called_once_timer (time : Z) :
  (Lodash.timerExpired 300 (time + 300)
     (Lodash.debounced 300 time Lodash.throttle).1).2 = false.
Proof.
  unfold Lodash.timerExpired, Lodash.shouldInvoke; simpl.
  replace (300 <=? time + 300 - time) with true
    by (symmetry; apply Z.leb_le; lia).
  done.
Qed.

(** ** The widget *)

(** Every change of the text to a new, non-empty value sends a request for
    that value at once: the render that follows the change has a throttled
    function of its own, and the effect makes its first call. *)
Lemma change_sends_at_once (props : UserSearchProps) (time : Z) (w : Widget)
    (value : string) :
  value ≠ newUser (state w) →
  value ≠ EmptyString →
  (step props time w (Change value)).2 = [SearchUsers value].
Proof.
  intros Hnew Hnonempty. unfold step, render; simpl.
  destruct (String.eqb_spec (newUser (state w)) value); [congruence |].
  unfold searchEffect, truthy; simpl.
  by destruct (String.eqb_spec value EmptyString).
Qed.

(** C6 (the code at a failing input): the text changes to "a" at 0 ms and
    to "ab" at 100 ms; the widget sends two requests within 300 ms, one for
    "a" at 0 and one for "ab" at 100, and the timers of the two throttled
    functions, when they fire, send nothing. *)
Theorem two_changes_two_requests :
  requests
    (run no_props (mount no_props 0).1
       [ (0, Change "a"); (100, Change "ab");
         (300, TimerFires 0%nat); (400, TimerFires 0%nat) ]).2
  = [ (0, "a"); (100, "ab") ]
  ∧ length
      (in_window 0
         (run no_props (mount no_props 0).1
            [ (0, Change "a"); (100, Change "ab");
              (300, TimerFires 0%nat); (400, TimerFires 0%nat) ]).2)
    = 2%nat.
Proof. split; reflexivity. Qed.

End UserSearchSpec.

(* ===================================================================== *)
(** * More on the explorer: runs of events and what is on screen          *)
(* ===================================================================== *)

Module ExplorerExtra.
Import Explorer ExplorerView ExplorerSpec.

Lemma slice_nil {A} (start_ end_ : Z) : slice (@nil A) start_ end_ = [].
Proof. unfold slice. by rewrite drop_nil, take_nil. Qed.

Lemma slice_from_0_take {A} (l : list A) (end_ : Z) :
  ∃ n, slice l 0 end_ = take n l.
Proof.
  unfold slice; simpl.
  replace (0 `min` Z.of_nat (length l)) with 0 by lia.
  rewrite drop_0. by eexists.
Qed.

Section WithColors.
Context `{TinyColor}.

(** ** One event *)

Lemma step_artist (s : State) mbid :
  step s (OnArtistChange mbid)
  = (setArtistMBID mbid s,
     if String.eqb (artistMBID s) mbid then [] else fetchData mbid).
Proof. unfold step, commit; simpl. by rewrite Z.eqb_refl. Qed.

Lemma step_track (s : State) tracks :
  step s (OnTrackChange tracks) = (setCurrentTracks tracks s, []).
Proof. unfold step, commit; simpl. by rewrite String.eqb_refl, Z.eqb_refl. Qed.

Lemma step_limit_same (s : State) :
  step s (OnSimilarArtistsLimitChange (similarArtistsLimit s))
  = (setSimilarArtistsLimit (similarArtistsLimit s) s, []).
Proof. unfold step, commit; simpl. by rewrite String.eqb_refl, Z.eqb_refl. Qed.

Lemma step_resolved_dataset (s : State) dataResponse first others :
  datasets dataResponse = first :: others →
  step s (FetchSettled (Resolved dataResponse))
  = (sliceEffect
       (setColors rotate
          (setCompleteSimilarArtistsList
             (from_option dataset_data [] (head others))
             (setMainArtist (head (dataset_data first)) s))), []).
Proof.
  intros Hds. rewrite step_resolved, storesCompleteList_datasets, Hds.
  simpl. unfold processData. rewrite filter_isDatasetResponse, Hds.
  by destruct others.
Qed.

Lemma step_resolved_no_dataset (s : State) dataResponse :
  datasets dataResponse = [] →
  step s (FetchSettled (Resolved dataResponse)) = (setColors rotate s, []).
Proof.
  intros Hnone. rewrite step_resolved, storesCompleteList_datasets, Hnone.
  simpl. by rewrite processData_no_dataset.
Qed.

(** The cases of an event, each with the state and the effects it gives. *)
Lemma step_cases (s : State) ev :
  (∃ mbid, ev = OnArtistChange mbid
     ∧ step s ev = (setArtistMBID mbid s,
                    if String.eqb (artistMBID s) mbid then []
                    else fetchData mbid))
  ∨ (∃ limit, ev = OnSimilarArtistsLimitChange limit
       ∧ limit ≠ similarArtistsLimit s
       ∧ step s ev = (sliceEffect (setSimilarArtistsLimit limit s), []))
  ∨ (ev = OnSimilarArtistsLimitChange (similarArtistsLimit s)
       ∧ step s ev = (setSimilarArtistsLimit (similarArtistsLimit s) s, []))
  ∨ (∃ tracks, ev = OnTrackChange tracks
       ∧ step s ev = (setCurrentTracks tracks s, []))
  ∨ (∃ dataResponse first others,
       ev = FetchSettled (Resolved dataResponse)
       ∧ datasets dataResponse = first :: others
       ∧ step s ev
         = (sliceEffect
              (setColors rotate
                 (setCompleteSimilarArtistsList
                    (from_option dataset_data [] (head others))
                    (setMainArtist (head (dataset_data first)) s))), []))
  ∨ (∃ dataResponse,
       ev = FetchSettled (Resolved dataResponse)
       ∧ datasets dataResponse = []
       ∧ step s ev = (setColors rotate s, []))
  ∨ (∃ error, ev = FetchSettled (Rejected error)
       ∧ step s ev
         = (setSimilarArtistsList [] s, [Toast (searchErrorToast error)])).
Proof.
  destruct ev as [mbid|limit|tracks|[dataResponse|error]].
  - left. eexists. split; [done | apply step_artist].
  - destruct (decide (limit = similarArtistsLimit s)) as [->|Hne].
    + do 2 right; left. split; [done | apply step_limit_same].
    + right; left. eexists. split_and!; [done | done | by apply step_limit].
  - do 3 right; left. eexists. split; [done | apply step_track].
  - destruct (datasets dataResponse) as [|first others] eqn:Hds.
    + do 5 right; left. eexists. split_and!; [done | done |].
      by apply step_resolved_no_dataset.
    + do 4 right; left. eexists _, _, _. split_and!; [done | done |].
      by apply step_resolved_dataset.
  - do 6 right. eexists. split; [done | apply step_rejected].
Qed.

Ltac by_event s ev :=
  destruct (step_cases s ev)
    as [(mbid & -> & ->)
       |[(limit & -> & Hchange & ->)
        |[(-> & ->)
         |[(tracks & -> & ->)
          |[(dataResponse & first & others & -> & Hds & ->)
           |[(dataResponse & -> & Hnone & ->)
            |(error & -> & ->)]]]]]].

(** ** The displayed list *)

Lemma step_in_sync (s : State) ev : in_sync s → in_sync (step s ev).1.
Proof.
  unfold in_sync. intros Hs.
  by_event s ev; simpl; try done; by (left + right).
Qed.

Lemma run_in_sync (s : State) evs : in_sync s → in_sync (run s evs).1.
Proof.
  revert s. induction evs as [|ev evs IH]; intros s Hs; [done |].
  rewrite run_cons; simpl. by apply IH, step_in_sync.
Qed.

(** X1: whatever happens to a mounted explorer, the displayed list is
    either empty or [completeList.slice(0, limit)] for the complete list and
    the limit of that moment; it is always a prefix of the complete list. *)
Theorem displayed_list_in_sync (initialColor : Color) (evs : list Event) :
  (similarArtistsList (run (mount initialColor).1 evs).1 = []
   ∨ similarArtistsList (run (mount initialColor).1 evs).1
     = slice (completeSimilarArtistsList (run (mount initialColor).1 evs).1)
         0 (similarArtistsLimit (run (mount initialColor).1 evs).1))
  ∧ similarArtistsList (run (mount initialColor).1 evs).1
    `prefix_of` completeSimilarArtistsList (run (mount initialColor).1 evs).1.
Proof.
  assert (Hsync : in_sync (run (mount initialColor).1 evs).1).
  { apply run_in_sync. by left. }
  split; [exact Hsync |].
  destruct Hsync as [-> | ->]; [apply prefix_nil |].
  destruct (slice_from_0_take
              (completeSimilarArtistsList (run (mount initialColor).1 evs).1)
              (similarArtistsLimit (run (mount initialColor).1 evs).1))
    as [n ->].
  apply prefix_take.
Qed.

(** X2: while the limit is not negative, a mounted explorer never displays
    more similar artists than the limit. *)
Theorem displayed_list_within_limit (initialColor : Color)
    (evs : list Event) :
  0 ≤ similarArtistsLimit (run (mount initialColor).1 evs).1 →
  Z.of_nat (length (similarArtistsList (run (mount initialColor).1 evs).1))
  ≤ similarArtistsLimit (run (mount initialColor).1 evs).1.
Proof.
  intros Hpos.
  assert (Hsync : in_sync (run (mount initialColor).1 evs).1).
  { apply run_in_sync. by left. }
  destruct Hsync as [-> | ->]; [simpl length; lia |].
  rewrite slice_from_0 by done. rewrite length_take. lia.
Qed.

(** ** Before the first dataset *)

(** X3: until a response with a dataset entry arrives, whatever else
    happens (failures, responses without a dataset, changes of the artist,
    of the limit, of the tracks), there is no main artist and both lists are
    empty, so the graph is empty and there is no panel. *)
Theorem blank_until_first_dataset {GraphNode GraphLink : Type}
    (generateTransformedArtists :
       ArtistType → list ArtistType → Color → Color → Z
       → GraphDataType (GraphNode:=GraphNode) (GraphLink:=GraphLink))
    (initialColor : Color) (evs : list Event) :
  Forall without_dataset evs →
  mainArtist (run (mount initialColor).1 evs).1 = None
  ∧ completeSimilarArtistsList (run (mount initialColor).1 evs).1 = []
  ∧ similarArtistsList (run (mount initialColor).1 evs).1 = []
  ∧ graph_data (render generateTransformedArtists
                  (run (mount initialColor).1 evs).1) = mkGraph [] []
  ∧ panel_artist (render generateTransformedArtists
                    (run (mount initialColor).1 evs).1) = None.
Proof.
  intros Hevs.
  assert (Hblank : ∀ s : State,
            mainArtist s = None ∧ completeSimilarArtistsList s = []
            ∧ similarArtistsList s = [] →
            mainArtist (run s evs).1 = None
            ∧ completeSimilarArtistsList (run s evs).1 = []
            ∧ similarArtistsList (run s evs).1 = []).
  { induction Hevs as [|ev evs Hev _ IH]; intros s (Hm & Hc & Hd); [done |].
    rewrite run_cons; simpl. apply IH.
    by_event s ev; simpl; try done.
    - by rewrite Hc, slice_nil.
    - simpl in Hev. congruence. }
  destruct (Hblank (mount initialColor).1) as (Hm & Hc & Hd); [done |].
  split_and!; try done.
  unfold render, transformedArtists; cbn [graph_data]. by rewrite Hm.
Qed.

(** ** What a run asks for *)

Lemma run_artistMBID_step (s : State) ev :
  artistMBID (step s ev).1
  = match ev with OnArtistChange mbid => mbid | _ => artistMBID s end.
Proof. by by_event s ev. Qed.

(** X4: the requests of a run are one request to [BASE_URL + mbid] for each
    change of the selected artist to another mbid, in that order; selecting
    the current artist again, changes of the limit or of the tracks,
    responses and failures send none. *)
Theorem requests_follow_selections (s : State) (evs : list Event) :
  List.filter is_fetch (run s evs).2
  = (λ mbid, Fetch (BASE_URL +:+ mbid)) <$> selections (artistMBID s) evs.
Proof.
  revert s. induction evs as [|ev evs IH]; intros s; [done |].
  rewrite run_cons; simpl snd. rewrite List.filter_app, IH.
  rewrite run_artistMBID_step.
  by_event s ev; simpl; try done.
  by destruct (String.eqb_spec (artistMBID s) mbid) as [<-|_].
Qed.

(** X5: the notifications of a run are the "Search Error" toasts of its
    failed fetches, one for each and in that order; nothing else raises
    one. *)
Theorem toasts_follow_failures (s : State) (evs : list Event) :
  toast_calls (run s evs).2 = searchErrorToast <$> failures evs.
Proof.
  revert s. induction evs as [|ev evs IH]; intros s; [done |].
  rewrite run_cons; simpl snd. unfold toast_calls in *.
  rewrite omap_app, IH.
  by_event s ev; simpl; try done.
  by destruct (String.eqb (artistMBID s) mbid).
Qed.

(** ** A response with a dataset *)

(** X6: a response with a dataset entry puts on display the slice
    [slice(0, limit)] of the data of its second dataset entry (nothing when
    it has one dataset entry only), whatever was displayed before, also
    after a failure has emptied the display, and sends no request. *)
Theorem response_resyncs_display (s : State) (dataResponse : ApiResponseType)
    (first : DatasetResponseType) (others : list DatasetResponseType) :
  datasets dataResponse = first :: others →
  similarArtistsList (step s (FetchSettled (Resolved dataResponse))).1
  = slice (from_option dataset_data [] (head others)) 0
      (similarArtistsLimit s)
  ∧ (others = [] →
     similarArtistsList (step s (FetchSettled (Resolved dataResponse))).1 = [])
  ∧ (step s (FetchSettled (Resolved dataResponse))).2 = [].
Proof.
  intros Hds. rewrite (step_resolved_dataset _ _ _ _ Hds).
  split_and!; [done | | done].
  intros ->. apply slice_nil.
Qed.

(** X7: a response whose first dataset entry has no row leaves the explorer
    without a main artist: the graph is empty and the panel is gone, while
    the complete list is still replaced by the data of the second dataset
    entry. *)
Theorem empty_first_dataset_hides_panel {GraphNode GraphLink : Type}
    (generateTransformedArtists :
       ArtistType → list ArtistType → Color → Color → Z
       → GraphDataType (GraphNode:=GraphNode) (GraphLink:=GraphLink))
    (s : State) (dataResponse : ApiResponseType)
    (first : DatasetResponseType) (others : list DatasetResponseType) :
  datasets dataResponse = first :: others →
  dataset_data first = [] →
  panel_artist (render generateTransformedArtists
                  (step s (FetchSettled (Resolved dataResponse))).1) = None
  ∧ graph_data (render generateTransformedArtists
                  (step s (FetchSettled (Resolved dataResponse))).1)
    = mkGraph [] []
  ∧ completeSimilarArtistsList
      (step s (FetchSettled (Resolved dataResponse))).1
    = from_option dataset_data [] (head others).
Proof.
  intros Hds Hempty. rewrite (step_resolved_dataset _ _ _ _ Hds).
  unfold render, transformedArtists; simpl. by rewrite Hempty.
Qed.

(** ** After a failure *)

(** X19: once the display is empty (after a failed fetch), it stays empty
    through every event but a change of the limit to another value and a
    response with a dataset entry: setting the limit to the value it has,
    selecting an artist, a response without a dataset and a further failure
    do not bring the retained complete list back on screen. *)
Theorem display_stays_empty (s : State) (evs : list Event) :
  similarArtistsList s = [] →
  Forall (keeps_display (similarArtistsLimit s)) evs →
  similarArtistsList (run s evs).1 = []
  ∧ completeSimilarArtistsList (run s evs).1 = completeSimilarArtistsList s
  ∧ similarArtistsLimit (run s evs).1 = similarArtistsLimit s.
Proof.
  intros Hempty Hevs. revert s Hempty Hevs.
  induction evs as [|ev evs IH]; intros s Hempty Hevs; [done |].
  apply Forall_cons in Hevs as [Hev Hevs].
  rewrite run_cons; simpl fst.
  assert (Hstep : similarArtistsList (step s ev).1 = []
                  ∧ completeSimilarArtistsList (step s ev).1
                    = completeSimilarArtistsList s
                  ∧ similarArtistsLimit (step s ev).1 = similarArtistsLimit s).
  { by_event s ev; simpl in *; try done; congruence. }
  destruct Hstep as (Hd & Hc & Hl).
  rewrite <- Hc, <- Hl. apply IH; [done | by rewrite Hl].
Qed.

End WithColors.

Lemma display_stays_empty_witness :
  similarArtistsList
    (run sample_state
       [ FetchSettled (Rejected (ThrownObject "Failed to fetch"));
         OnSimilarArtistsLimitChange 18;
         FetchSettled (Resolved sample_markup_only) ]).1
  = []
  ∧ completeSimilarArtistsList
      (run sample_state
         [ FetchSettled (Rejected (ThrownObject "Failed to fetch"));
           OnSimilarArtistsLimitChange 18;
           FetchSettled (Resolved sample_markup_only) ]).1
    = [massive_attack; tricky; bjork].
Proof.
  rewrite ExplorerSpec.run_cons. simpl fst.
  destruct (display_stays_empty (H:=HueWheel)
              (step sample_state
                 (FetchSettled (Rejected (ThrownObject "Failed to fetch")))).1
              [ OnSimilarArtistsLimitChange 18;
                FetchSettled (Resolved sample_markup_only) ]
              eq_refl)
    as (Hd & Hc & _); [repeat constructor |].
  split; [exact Hd | exact Hc].
Defined.

(** ** The theorems on sample runs *)

Lemma displayed_list_within_limit_witness :
  Z.of_nat
    (length
       (similarArtistsList
          (run (mount (H:=HueWheel) 0).1
             [ FetchSettled (Resolved sample_response);
               OnSimilarArtistsLimitChange 2 ]).1))
  ≤ 2.
Proof.
  apply (displayed_list_within_limit (H:=HueWheel) 0
           [ FetchSettled (Resolved sample_response);
             OnSimilarArtistsLimitChange 2 ]).
  vm_compute. discriminate.
Defined.

Lemma blank_until_first_dataset_witness :
  panel_artist
    (render (H:=HueWheel) sample_transform
       (run (mount (H:=HueWheel) 0).1
          [ FetchSettled (Rejected (ThrownObject "Failed to fetch"));
            OnSimilarArtistsLimitChange 5;
            FetchSettled (Resolved sample_markup_only) ]).1)
  = None.
Proof.
  apply (blank_until_first_dataset (H:=HueWheel) sample_transform 0
           [ FetchSettled (Rejected (ThrownObject "Failed to fetch"));
             OnSimilarArtistsLimitChange 5;
             FetchSettled (Resolved sample_markup_only) ]).
  repeat constructor.
Defined.

Lemma response_resyncs_display_witness :
  similarArtistsList
    (step sample_state (FetchSettled (Resolved [Dataset sample_main]))).1
  = [].
Proof.
  destruct (response_resyncs_display (H:=HueWheel) sample_state
              [Dataset sample_main] sample_main [] eq_refl)
    as (_ & Hemptied & _).
  exact (Hemptied eq_refl).
Defined.

Lemma empty_first_dataset_hides_panel_witness :
  panel_artist
    (render (H:=HueWheel) sample_transform
       (step sample_state
          (FetchSettled
             (Resolved [Dataset (mkDataset [] []); Dataset sample_similar]))).1)
  = None.
Proof.
  apply (empty_first_dataset_hides_panel (H:=HueWheel) sample_transform
           sample_state
           [Dataset (mkDataset [] []); Dataset sample_similar]
           (mkDataset [] []) [sample_similar] eq_refl eq_refl).
Defined.

End ExplorerExtra.

(* ===================================================================== *)
(** * More on the panel: runs of events                                   *)
(* ===================================================================== *)

Module PanelExtra.
Import Panel PanelRuns PanelSpec.

Lemma panel_run_cons (s : State) ev evs :
  run s (ev :: evs)
  = ((run (step s ev).1 evs).1, (step s ev).2 ++ (run (step s ev).1 evs).2).
Proof.
  simpl. destruct (step s ev) as [s1 fx]; simpl.
  by destruct (run s1 evs).
Qed.

Lemma panel_run_snoc (s : State) evs ev :
  (run s (evs ++ [ev])).1 = (step (run s evs).1 ev).1.
Proof.
  revert s. induction evs as [|ev' evs IH]; intros s.
  - simpl. by destruct (step s ev).
  - rewrite <- app_comm_cons, !panel_run_cons. simpl. apply IH.
Qed.

(** A click when the top track has a name. *)
Lemma click_named (s : State) (card : Card) (track : RecordingType)
    (track_name : string) :
  artistInfo s ≫= topTrack = Some track →
  recording_name track = Some track_name →
  track_name ≠ EmptyString →
  step s (Click card)
  = (s, [OnTrackChange
           [ mkListen 0
               (mkTrackMetadata (Types.name (artist s)) track_name
                  (release_name track) (release_mbid track)
                  (recording_mbid track)) ]]).
Proof.
  intros Htrack Hname Hnonempty. simpl.
  rewrite (rendered_topTrack _ _ _ Htrack).
  unfold handleTrackChange. rewrite Htrack, Hname.
  unfold truthy. by destruct (String.eqb_spec track_name EmptyString).
Qed.

(** X8: after any run of events the info of the panel is the result of the
    last lookup that ended well, with the name and the type of the artist
    that lookup was started for, whichever artist the panel has by then;
    when no lookup ended well the info is what it was. Failed lookups,
    clicks and changes of the artist leave it alone. *)
Theorem panel_shows_last_resolved (s : State) (evs : list Event) :
  artistInfo (run s evs).1
  = match last_resolved evs with
    | Some (startedFor, artistApiInfo) =>
        Some (mkArtistInfo (Some (Types.name startedFor))
                (Types.type startedFor) (born artistApiInfo)
                (area artistApiInfo) (wiki artistApiInfo)
                (mbLink artistApiInfo) (topAlbum artistApiInfo)
                (topTrack artistApiInfo))
    | None => artistInfo s
    end.
Proof.
  induction evs as [|ev evs IH] using rev_ind; [done |].
  rewrite panel_run_snoc. unfold last_resolved in *. rewrite omap_app.
  destruct ev as [a|card|a [artistApiInfo|error]]; simpl;
    rewrite ?app_nil_r, ?last_snoc; try done.
Qed.

(** X9: until a lookup ends well the panel renders nothing, and nothing is
    reported through [onTrackChange], whatever is clicked and however many
    lookups fail. *)
Theorem nothing_rendered_until_resolved (a : ArtistType) (evs : list Event) :
  Forall unresolved evs →
  render (run (mount a).1 evs).1 = None
  ∧ omap App.forward (run (mount a).1 evs).2 = [].
Proof.
  intros Hevs.
  assert (Hnone : ∀ s : State,
            artistInfo s = None →
            artistInfo (run s evs).1 = None
            ∧ omap App.forward (run s evs).2 = []).
  { induction Hevs as [|ev evs Hev _ IH]; intros s Hs; [done |].
    rewrite panel_run_cons; simpl fst; simpl snd. rewrite omap_app.
    destruct ev as [b|card|b [artistApiInfo|error]]; try done.
    - apply (IH (mkState b (artistInfo s))), Hs.
    - simpl. unfold rendered, render. rewrite Hs. simpl. by apply IH.
    - simpl. by apply IH. }
  destruct (Hnone (mount a).1 eq_refl) as [Hinfo Hquiet].
  split; [| done].
  unfold render. by rewrite Hinfo.
Qed.

(** X10: between a change of the artist and the end of its lookup, also
    when that lookup fails, the panel keeps the earlier info; a click then
    reports the earlier top track under the name of the new artist. *)
Theorem click_after_artist_change (s : State) (newArtist : ArtistType)
    (error : Thrown) (card : Card) (track : RecordingType)
    (track_name : string) :
  artistInfo s ≫= topTrack = Some track →
  recording_name track = Some track_name →
  track_name ≠ EmptyString →
  (run s [ ArtistProp newArtist; Click card ]).2
  = [ InfoLookup (artist_mbid newArtist);
      OnTrackChange
        [ mkListen 0
            (mkTrackMetadata (Types.name newArtist) track_name
               (release_name track) (release_mbid track)
               (recording_mbid track)) ] ]
  ∧ (run s [ ArtistProp newArtist;
             LookupSettled newArtist (Rejected error);
             Click card ]).2
    = [ InfoLookup (artist_mbid newArtist);
        Toast (searchErrorToast error);
        OnTrackChange
          [ mkListen 0
              (mkTrackMetadata (Types.name newArtist) track_name
                 (release_name track) (release_mbid track)
                 (recording_mbid track)) ] ].
Proof.
  intros Htrack Hname Hnonempty.
  pose proof (click_named (mkState newArtist (artistInfo s)) card track
                track_name Htrack Hname Hnonempty) as Hclick.
  split.
  - rewrite panel_run_cons.
    change (step s (ArtistProp newArtist))
      with (mkState newArtist (artistInfo s),
            [InfoLookup (artist_mbid newArtist)]).
    cbn [fst snd]. by rewrite panel_run_cons, Hclick.
  - rewrite panel_run_cons.
    change (step s (ArtistProp newArtist))
      with (mkState newArtist (artistInfo s),
            [InfoLookup (artist_mbid newArtist)]).
    cbn [fst snd]. rewrite panel_run_cons.
    change (step (mkState newArtist (artistInfo s))
              (LookupSettled newArtist (Rejected error)))
      with (mkState newArtist (artistInfo s),
            [Toast (searchErrorToast error)]).
    cbn [fst snd]. by rewrite panel_run_cons, Hclick.
Qed.

(** X20: in a run of events the panel starts one lookup for each artist
    handed to it, keyed by the mbid of that artist, and raises one "Search
    Error" toast for each lookup that failed; clicks and lookups that ended
    well start no lookup and raise no toast. *)
Theorem lookups_follow_artists (s : State) (evs : list Event) :
  lookups (run s evs).2 = artist_mbid <$> artists_given evs
  ∧ toasts (run s evs).2 = searchErrorToast <$> failed_lookups evs.
Proof.
  revert s. induction evs as [|ev evs IH]; intros s; [done |].
  rewrite panel_run_cons; simpl snd. unfold lookups, toasts in *.
  rewrite !omap_app.
  destruct (IH (step s ev).1) as [-> ->].
  destruct ev as [a|card|a [artistApiInfo|error]]; simpl; try done.
  unfold handleTrackChange.
  destruct (rendered card s); [| done].
  destruct (artistInfo s ≫= topTrack) as [track|]; [| done].
  destruct (recording_name track) as [track_name|]; [| done].
  by destruct (truthy track_name).
Qed.

Lemma nothing_rendered_until_resolved_witness :
  render
    (run (mount portishead).1
       [ Click TopTrackCard;
         LookupSettled portishead (Rejected (ThrownObject "Failed to fetch"));
         Click TopAlbumCard ]).1
  = None.
Proof.
  apply (nothing_rendered_until_resolved portishead
           [ Click TopTrackCard;
             LookupSettled portishead
               (Rejected (ThrownObject "Failed to fetch"));
             Click TopAlbumCard ]).
  repeat constructor.
Defined.

Lemma click_after_artist_change_witness :
  (run (mkState portishead (Some sample_info))
     [ ArtistProp (mkArtist "10adbe5e-a2c0-4bf3-8249-2b4cbf6e6ca8"
                     "Massive Attack" (Some "Group"));
       Click TopTrackCard ]).2
  = [ InfoLookup "10adbe5e-a2c0-4bf3-8249-2b4cbf6e6ca8";
      OnTrackChange
        [ mkListen 0
            (mkTrackMetadata "Massive Attack" "Glory Box" "Dummy"
               "76df3287-6cda-33eb-8e9a-044b5e15ffdd"
               (Some "145f5c43-0ac2-4886-8b09-63d0e92ded5d")) ] ].
Proof.
  destruct (click_after_artist_change
              (mkState portishead (Some sample_info))
              (mkArtist "10adbe5e-a2c0-4bf3-8249-2b4cbf6e6ca8"
                 "Massive Attack" (Some "Group"))
              (ThrownObject "Failed to fetch") TopTrackCard glory_box
              "Glory Box" eq_refl eq_refl)
    as [Hpending _]; [discriminate |].
  exact Hpending.
Defined.

End PanelExtra.

(* ===================================================================== *)
(** * The panel inside the explorer                                       *)
(* ===================================================================== *)

Module AppSpec.

(** X11: a click on a card of the panel, when the top track has a name,
    reaches the player: the explorer hands the player the one listen that
    the panel built, in place of what the player had; the click sends no
    request and leaves the main artist, both lists, the limit and the
    colours as they were. *)
Theorem panel_click_reaches_player `{Explorer.TinyColor}
    {GraphNode GraphLink : Type}
    (generateTransformedArtists :
       ArtistType → list ArtistType → Explorer.Color → Explorer.Color → Z
       → ExplorerView.GraphDataType (GraphNode:=GraphNode)
           (GraphLink:=GraphLink))
    (panel : Panel.State) (card : Panel.Card) (track : Panel.RecordingType)
    (track_name : string) (s : Explorer.State) :
  Panel.artistInfo panel ≫= Panel.topTrack = Some track →
  Panel.recording_name track = Some track_name →
  track_name ≠ EmptyString →
  ExplorerView.listens
    (ExplorerView.render generateTransformedArtists
       (Explorer.run s
          (omap App.forward (Panel.step panel (Panel.Click card)).2)).1)
  = [ mkListen 0
        (mkTrackMetadata (name (Panel.artist panel)) track_name
           (Panel.release_name track) (Panel.release_mbid track)
           (Panel.recording_mbid track)) ]
  ∧ (Explorer.run s
       (omap App.forward (Panel.step panel (Panel.Click card)).2)).2 = []
  ∧ (Explorer.run s
       (omap App.forward (Panel.step panel (Panel.Click card)).2)).1
    = Explorer.setCurrentTracks
        [ mkListen 0
            (mkTrackMetadata (name (Panel.artist panel)) track_name
               (Panel.release_name track) (Panel.release_mbid track)
               (Panel.recording_mbid track)) ] s.
Proof.
  intros Htrack Hname Hnonempty.
  rewrite (PanelExtra.click_named _ _ _ _ Htrack Hname Hnonempty).
  cbn [snd omap list_omap App.forward].
  rewrite ExplorerSpec.run_cons, ExplorerExtra.step_track.
  by split_and!.
Qed.

Lemma panel_click_reaches_player_witness :
  ExplorerView.listens
    (ExplorerView.render ExplorerView.sample_transform
       (Explorer.run Explorer.sample_state
          (omap App.forward
             (Panel.step
                (Panel.mkState Panel.portishead (Some Panel.sample_info))
                (Panel.Click Panel.TopAlbumCard)).2)).1)
  = [ mkListen 0
        (mkTrackMetadata "Portishead" "Glory Box" "Dummy"
           "76df3287-6cda-33eb-8e9a-044b5e15ffdd"
           (Some "145f5c43-0ac2-4886-8b09-63d0e92ded5d")) ].
Proof.
  destruct (panel_click_reaches_player (H:=Explorer.HueWheel)
              ExplorerView.sample_transform
              (Panel.mkState Panel.portishead (Some Panel.sample_info))
              Panel.TopAlbumCard Panel.glory_box "Glory Box"
              Explorer.sample_state eq_refl eq_refl)
    as (Hlistens & _ & _); [discriminate |].
  exact Hlistens.
Defined.

End AppSpec.

(* ===================================================================== *)
(** * More on the user search widget                                      *)
(* ===================================================================== *)

Module UserSearchExtra.
Import UserSearch UserSearchView.

(** X12: the list of suggestions is on screen exactly when there are search
    results, and [aria-haspopup] says so; when it is on screen it has between
    1 and 8 visible rows, never more rows than results, and one option per
    result, in the order of the results. *)
Theorem suggestions_capped_at_8 (s : State) :
  aria_haspopup (view s) = bool_decide (userSearchResults s ≠ [])
  ∧ match suggestions (view s) with
    | Some select =>
        userSearchResults s ≠ []
        ∧ (1 ≤ size select ≤ 8)%nat
        ∧ (size select ≤ length (userSearchResults s))%nat
        ∧ (size select = 8%nat ∨ size select = length (userSearchResults s))
        ∧ options select = user_name <$> userSearchResults s
    | None => userSearchResults s = []
    end.
Proof.
  unfold view, has_results; simpl.
  destruct (userSearchResults s) as [|user users]; simpl; [done |].
  split; [done |]. split_and!; try done; lia.
Qed.

Lemma widget_run_cons (props : UserSearchProps) (w : Widget) time ev evs :
  run props w ((time, ev) :: evs)
  = ((run props (step props time w ev).1 evs).1,
     (pair time <$> (step props time w ev).2)
     ++ (run props (step props time w ev).1 evs).2).
Proof.
  simpl. destruct (step props time w ev) as [w1 fx]; simpl.
  by destruct (run props w1 evs).
Qed.

(** The effect of a render on the state and on the requests. *)
Lemma searchEffect_state (time : Z) (w : Widget) :
  state (searchEffect time w).1 = state w.
Proof. unfold searchEffect. by destruct (truthy (newUser (state w))). Qed.

Lemma searchEffect_sends (time : Z) (w : Widget) :
  (searchEffect time w).2
  = if truthy (newUser (state w)) then [SearchUsers (newUser (state w))]
    else [].
Proof. unfold searchEffect. by destruct (truthy (newUser (state w))). Qed.

Lemma render_state (time : Z) (prev : State) (w : Widget) :
  state (render time prev w).1 = state w.
Proof.
  unfold render. destruct (String.eqb _ _); [done | apply searchEffect_state].
Qed.

Lemma render_sends (time : Z) (prev : State) (w : Widget) :
  (render time prev w).2
  = if String.eqb (newUser prev) (newUser (state w))
       || negb (truthy (newUser (state w)))
    then [] else [SearchUsers (newUser (state w))].
Proof.
  unfold render. destruct (String.eqb _ _); [done |].
  rewrite searchEffect_sends. by destruct (truthy _).
Qed.

(** ** Selecting a suggestion *)

(** X13: with [clearOnSelect], selecting a suggestion calls [onSelectUser]
    once with the selected name, empties the text and removes the list of
    suggestions, and sends no search request. *)
Theorem select_clears (props : UserSearchProps) (time : Z) (w : Widget)
    (user : string) :
  clearOnSelect props = Some true →
  (step props time w (ResultClick user)).2 = [OnSelectUser user]
  ∧ state (step props time w (ResultClick user)).1 = mkState EmptyString []
  ∧ suggestions (view (state (step props time w (ResultClick user)).1)) = None
  ∧ pending (step props time w (ResultClick user)).1 = pending w.
Proof.
  intros Hclear. unfold step, handleResultClick. rewrite Hclear. simpl.
  unfold render; simpl.
  by destruct (String.eqb (newUser (state w)) EmptyString).
Qed.

(** X14: without [clearOnSelect], selecting a suggestion whose name is not
    the text typed so far calls [onSelectUser] once, sets the text to that
    name, removes the list of suggestions, and sends a search request for
    the selected name. *)
Theorem select_searches_again (props : UserSearchProps) (time : Z)
    (w : Widget) (user : string) :
  default false (clearOnSelect props) = false →
  user ≠ newUser (state w) →
  user ≠ EmptyString →
  (step props time w (ResultClick user)).2
  = [OnSelectUser user; SearchUsers user]
  ∧ state (step props time w (ResultClick user)).1 = mkState user []
  ∧ suggestions (view (state (step props time w (ResultClick user)).1)) = None.
Proof.
  intros Hkeep Hnew Hnonempty. unfold step, handleResultClick.
  rewrite Hkeep.
  destruct (render time (state w) (mkWidget (mkState user []) (pending w)))
    as [w' fx] eqn:Hrender.
  pose proof (render_state time (state w)
                (mkWidget (mkState user []) (pending w))) as Hstate.
  pose proof (render_sends time (state w)
                (mkWidget (mkState user []) (pending w))) as Hsends.
  rewrite Hrender in Hstate, Hsends. simpl in *.
  destruct (String.eqb_spec (newUser (state w)) user); [congruence |].
  unfold truthy in Hsends.
  destruct (String.eqb_spec user EmptyString); [congruence |].
  simpl in Hsends. subst fx. rewrite Hstate. done.
Qed.

(** ** Runs of events *)

Lemma step_results (props : UserSearchProps) (time : Z) (w : Widget) ev :
  keeps_results (time, ev) →
  userSearchResults (state (step props time w ev).1)
  = userSearchResults (state w).
Proof.
  destruct ev as [value|user|[users|error]|i]; simpl; try done; intros _.
  - by rewrite render_state.
  - destruct (pending w !! i) as [t|]; [| done].
    by destruct (Lodash.timerExpired 300 time (variables t)).
Qed.

(** X15: typing (an empty text too), timers and failed searches never
    change the search results: after a run without a search that ended well
    and without a selection, the results are what they were. *)
Theorem results_kept (props : UserSearchProps) (w : Widget)
    (evs : list (Z * Event)) :
  Forall keeps_results evs →
  userSearchResults (state (run props w evs).1) = userSearchResults (state w).
Proof.
  intros Hevs. revert w.
  induction Hevs as [|[time ev] evs Hev _ IH]; intros w; [done |].
  rewrite widget_run_cons; simpl fst. by rewrite IH, step_results.
Qed.

Lemma timerExpired_quiet (time : Z) (d : Lodash.Debounced) :
  Lodash.lastArgs d = false →
  (Lodash.timerExpired 300 time d).2 = false
  ∧ Lodash.lastArgs (Lodash.timerExpired 300 time d).1 = false.
Proof.
  intros Hd. unfold Lodash.timerExpired, Lodash.trailingEdge.
  destruct (Lodash.shouldInvoke 300 time d); simpl; by rewrite ?Hd.
Qed.

Lemma searchEffect_quiet (time : Z) (w : Widget) :
  quiet w → quiet (searchEffect time w).1.
Proof.
  unfold quiet, searchEffect. intros Hw.
  destruct (truthy (newUser (state w))); simpl; [| done].
  apply Forall_app. split; [done |]. by repeat constructor.
Qed.

Lemma step_quiet (props : UserSearchProps) (time : Z) (w : Widget) ev :
  quiet w → quiet (step props time w ev).1.
Proof.
  intros Hw. destruct ev as [value|user|[users|error]|i]; simpl; try done.
  - unfold render; simpl. destruct (String.eqb _ _); [done |].
    by apply searchEffect_quiet.
  - unfold render; simpl. destruct (String.eqb _ _); [done |].
    pose proof (searchEffect_quiet time
                  (mkWidget
                     (mkState
                        (if default false (clearOnSelect props)
                         then EmptyString else user) [])
                     (pending w)) Hw) as Hq.
    by destruct (searchEffect time _).
  - destruct (pending w !! i) as [t|] eqn:Ht; [| done].
    pose proof (Forall_lookup_1 _ _ _ _ Hw Ht) as Hd. simpl in Hd.
    destruct (timerExpired_quiet time _ Hd) as [_ Hafter].
    destruct (Lodash.timerExpired 300 time (variables t)) as [d called].
    simpl in *. unfold quiet; simpl.
    destruct (Lodash.timerId d).
    + by apply Forall_insert.
    + by apply Forall_delete.
Qed.

Lemma step_newUser (props : UserSearchProps) (time : Z) (w : Widget) ev :
  newUser (state (step props time w ev).1)
  = text_after props (newUser (state w)) ev.
Proof.
  destruct ev as [value|user|[users|error]|i]; simpl; try done.
  - by rewrite render_state.
  - pose proof (render_state time (state w)
                  (mkWidget
                     (mkState
                        (if default false (clearOnSelect props)
                         then EmptyString else user) [])
                     (pending w))) as Hstate.
    destruct (render time (state w) _). simpl in *. by rewrite Hstate.
  - destruct (pending w !! i) as [t|]; [| done].
    by destruct (Lodash.timerExpired 300 time (variables t)).
Qed.

Lemma step_requests (props : UserSearchProps) (time : Z) (w : Widget) ev :
  quiet w →
  requests (pair time <$> (step props time w ev).2)
  = if String.eqb (newUser (state w))
         (text_after props (newUser (state w)) ev)
       || negb (truthy (text_after props (newUser (state w)) ev))
    then [] else [(time, text_after props (newUser (state w)) ev)].
Proof.
  intros Hw. destruct ev as [value|user|[users|error]|i]; simpl.
  - rewrite render_sends; simpl. by destruct (_ || _).
  - pose proof (render_sends time (state w)
                  (mkWidget
                     (mkState
                        (if default false (clearOnSelect props)
                         then EmptyString else user) [])
                     (pending w))) as Hsends.
    destruct (render time (state w) _) as [w' fx]. simpl in *. subst fx.
    by destruct (_ || _).
  - by rewrite String.eqb_refl.
  - by rewrite String.eqb_refl.
  - rewrite String.eqb_refl; simpl.
    destruct (pending w !! i) as [t|] eqn:Ht; [| done].
    pose proof (Forall_lookup_1 _ _ _ _ Hw Ht) as Hd. simpl in Hd.
    destruct (timerExpired_quiet time _ Hd) as [Hcalled _].
    destruct (Lodash.timerExpired 300 time (variables t)) as [d called].
    simpl in *. by subst called.
Qed.

(** X16: a mounted widget sends one search request for each change of the
    text to a new value that is not empty, at the time of that change and
    for that value, whether the text was typed or set by a selection; the
    timers of its throttled functions, the search results and the failures
    send none, and no change is held back or merged with a later one. At
    mount it sends one request for the initial value when that is not
    empty. *)
Theorem requests_follow_text (props : UserSearchProps) (time0 : Z)
    (evs : list (Z * Event)) :
  requests (run props (mount props time0).1 evs).2
  = text_changes props (default EmptyString (initialValue props)) evs
  ∧ (mount props time0).2
    = if truthy (default EmptyString (initialValue props))
      then [SearchUsers (default EmptyString (initialValue props))]
      else [].
Proof.
  split; [| apply searchEffect_sends].
  assert (Hrun : ∀ w, quiet w →
            requests (run props w evs).2
            = text_changes props (newUser (state w)) evs).
  { induction evs as [|[time ev] evs IH]; intros w Hw; [done |].
    rewrite widget_run_cons; simpl snd. unfold requests in *.
    rewrite omap_app. fold (requests (pair time <$> (step props time w ev).2)).
    rewrite (step_requests _ _ _ _ Hw), (IH _ (step_quiet _ _ _ _ Hw)).
    by rewrite step_newUser. }
  unfold mount. rewrite Hrun.
  - by rewrite searchEffect_state.
  - apply searchEffect_quiet. constructor.
Qed.

Lemma select_clears_witness :
  (step (mkProps "Search users" (Some true) None) 0
     (mkWidget (mkState "ab" [mkSearchUser "abby"; mkSearchUser "abel"]) [])
     (ResultClick "abby")).2
  = [OnSelectUser "abby"].
Proof.
  apply (select_clears (mkProps "Search users" (Some true) None) 0
           (mkWidget (mkState "ab" [mkSearchUser "abby"; mkSearchUser "abel"])
              [])
           "abby" eq_refl).
Defined.

Lemma select_searches_again_witness :
  (step no_props 0
     (mkWidget (mkState "ab" [mkSearchUser "abby"; mkSearchUser "abel"]) [])
     (ResultClick "abby")).2
  = [OnSelectUser "abby"; SearchUsers "abby"].
Proof.
  apply (select_searches_again no_props 0
           (mkWidget (mkState "ab" [mkSearchUser "abby"; mkSearchUser "abel"])
              [])
           "abby" eq_refl); discriminate.
Defined.

Lemma results_kept_witness :
  userSearchResults
    (state
       (run no_props
          (mkWidget (mkState "ab" [mkSearchUser "abby"]) [])
          [ (0, Change EmptyString);
            (50, SearchSettled (Rejected (ThrownObject "Failed to fetch")));
            (400, TimerFires 0%nat) ]).1)
  = [mkSearchUser "abby"].
Proof.
  apply (results_kept no_props
           (mkWidget (mkState "ab" [mkSearchUser "abby"]) [])
           [ (0, Change EmptyString);
             (50, SearchSettled (Rejected (ThrownObject "Failed to fetch")));
             (400, TimerFires 0%nat) ]).
  repeat constructor.
Defined.

End UserSearchExtra.

(* ===================================================================== *)
(** * More on the route table                                             *)
(* ===================================================================== *)

Module RoutesExtra.
Import Routes RoutesChecks.

(** X17: the entries of the route table that name a data loader are the
    home index, [search/], [playlist/:playlistID/] and [listening-now/]
    (the shared route loader), the three statistics charts and [/recent/]
    (a loader returned by their lazy import); the statistics index, the
    layouts and every other page name none. *)
Theorem routes_with_loader :
  preloaded
  = [ [Path "/"; Index];
      [Path "/"; Path "search/"];
      [Path "/"; Path "playlist/:playlistID/"];
      [Path "/"; Path "listening-now/"];
      [Path "/"; Path "/statistics/"; Path "top-artists/"];
      [Path "/"; Path "/statistics/"; Path "top-albums/"];
      [Path "/"; Path "/statistics/"; Path "top-tracks/"];
      [Path "/"; Path "/"; Path "/recent/"] ]
  ∧ Forall (λ entry, loader entry.2 = Some RouteLoader
                     ↔ entry.1 ∈ [ [Path "/"; Index];
                                   [Path "/"; Path "search/"];
                                   [Path "/"; Path "playlist/:playlistID/"];
                                   [Path "/"; Path "listening-now/"] ])
      (flat_map (labelled []) getIndexRoutes).
Proof.
  split; [reflexivity |].
  apply (bool_decide_unpack _). by vm_compute.
Qed.

(** X18: every entry of the route table is sound: an index entry has
    neither a path nor children and every other entry has a path; no two
    children of an entry match the same way; an entry has either an
    [element] (the outer layout) or a [lazy] function (all the others),
    never both and never neither. *)
Theorem route_table_sound :
  Forall sound (flat_map all_routes getIndexRoutes).
Proof. apply (bool_decide_unpack _). by vm_compute. Qed.

End RoutesExtra.
